(** * Autotype key injection on X11: a shallow embedding of
      [src/os/linux/xsendstring.cpp] and the properties of its specification.

    Integers of the C++ code ([wchar_t], [int], [KeySym], [KeyCode]) are
    modelled as [Z]; the values that occur stay far below any wrap-around.
    Text buffers are [string]s, cut where [snprintf] cuts them.  The X server
    and the parts of Xlib and libc the code calls are a record of functions
    ([XServer]); the process-wide state the code mutates (the globals, the
    statics of [UseXTest], the registered error handler) is the record
    [Process], threaded explicitly, together with the list of requests the
    process has put on the wire. *)

From Stdlib Require Import ZArith List String Ascii Bool Lia.
From Stdlib Require Import DecimalString.
Import ListNotations.
Open Scope Z_scope.

(** ** X11 vocabulary *)

Definition KeySym := Z.
Definition KeyCode := Z.
Definition Window := Z.

(* X.h / keysymdef.h *)
Definition NoSymbol : KeySym := 0.
Definition XK_BackSpace : KeySym := 0xff08.
Definition XK_Tab : KeySym := 0xff09.
Definition XK_Linefeed : KeySym := 0xff0a.
Definition XK_Return : KeySym := 0xff0d.
Definition XK_Escape : KeySym := 0xff1b.
Definition XK_Delete : KeySym := 0xffff.
Definition XK_Shift_L : KeySym := 0xffe1.
Definition XK_Mode_switch : KeySym := 0xff7e.
Definition XK_ISO_Level3_Shift : KeySym := 0xfe03.
Definition ShiftMask : Z := 1.
Definition Mod1MapIndex : Z := 3.
Definition KeyPressMask : Z := 1.
Definition KeyPress : Z := 2.
Definition KeyRelease : Z := 3.
Definition CurrentTime : Z := 0.

(** Modelled from the spec: the enumeration [pws_os::AutotypeMethod] is
    declared in xsendstring.h, which is not among the sources; the code names
    only [ATMETHOD_XSENDKEYS] (the forced fallback).  Every other member
    means that the native method is preferred. *)
Inductive AutotypeMethod := ATMETHOD_AUTO | ATMETHOD_XTEST | ATMETHOD_XSENDKEYS.

Definition is_XSENDKEYS (m : AutotypeMethod) : bool :=
  match m with ATMETHOD_XSENDKEYS => true | _ => false end.

Record XErrorEvent := {
  error_code : Z;
  request_code : Z;
  minor_code : Z
}.

Record XKeyEvent := {
  ev_type : Z;
  ev_window : Window;
  ev_keycode : KeyCode;
  ev_state : Z;
  ev_time : Z
}.

Record XModifierKeymap := {
  max_keypermod : Z;
  modifiermap : list KeyCode
}.

(** What the process does that is visible outside it, in order. *)
Inductive Action :=
| XTestFakeKeyEvent (keycode : KeyCode) (is_press : bool) (delay : Z)
| XSendEvent (w : Window) (propagate : bool) (event_mask : Z) (ev : XKeyEvent)
| XFlush
| XSync (discard : bool)
| XTestGrabControl (impervious : bool)
| sleep_ms (ms : Z).

(** The display server, with the Xlib entry points that only read from it.
    [XGetKeyboardMapping kc] is the call for one key code: [None] is a NULL
    result, [Some (symlist, n)] a list together with the reported
    [keysyms_per_keycode].  [XErrors history] are the protocol errors Xlib
    hands to the registered handler while the last request of [history] is
    issued. *)
Record XServer := {
  XOpenDisplay : bool;
  XGetInputFocus : Window;
  XKeysymToKeycode : KeySym -> KeyCode;
  XKeysymToString : KeySym -> option string;
  XGetKeyboardMapping : KeyCode -> option (list KeySym * Z);
  XGetModifierMapping : option XModifierKeymap;
  XQueryExtension : string -> bool;
  XGetErrorText : Z -> nat -> string;
  XErrors : list Action -> list XErrorEvent
}.

(** The handler registered with [XSetErrorHandler]: Xlib's default one
    (what passing NULL selects), the one of this file, or somebody else's. *)
Inductive XErrorHandler :=
| DefaultHandler
| AutotypeHandler
| ForeignHandler (id : nat).

Record KeyPressInfo := {
  code : KeyCode;
  state : Z
}.

Record AutotypeGlobals := {
  error_detected : bool;
  errorString : string
}.

Record Process := {
  atGlobals : AutotypeGlobals;
  checked : bool;            (* static int checked  of UseXTest *)
  useXTest : bool;           (* static Bool useXTest of UseXTest *)
  handler : XErrorHandler;
  requests : list Action
}.

Inductive Outcome := Returned | Thrown.

(** ** printf-style formatting *)

(* snprintf(buf, size, ...) keeps size-1 characters *)
Definition snprintf (size : nat) (s : string) : string :=
  substring 0 (size - 1) s.

(* strncpy(buf, s, size) of a literal shorter than the buffer *)
Definition strncpy (size : nat) (s : string) : string :=
  substring 0 size s.

Definition fmt_d (z : Z) : string :=
  NilZero.string_of_int (Z.to_int z).

Definition hex_digit (d : Z) : ascii :=
  nth (Z.to_nat d) (list_ascii_of_string "0123456789ABCDEF") "0"%char.

Fixpoint hex_upper (fuel : nat) (n : Z) (acc : string) : string :=
  match fuel with
  | O => acc
  | S f =>
      let acc' := String (hex_digit (n mod 16)) acc in
      if n / 16 =? 0 then acc' else hex_upper f (n / 16) acc'
  end.

Fixpoint zero_pad (k : nat) (s : string) : string :=
  match k with
  | O => s
  | S k' => zero_pad k' (String "0"%char s)
  end.

(* the argument of %X is read as an unsigned int *)
Definition as_unsigned (z : Z) : Z := z mod 2 ^ 32.

Definition fmt_X (z : Z) : string := hex_upper 8 (as_unsigned z) EmptyString.

Definition fmt_04X (z : Z) : string :=
  let s := fmt_X z in zero_pad (4 - String.length s) s.

Definition fmt_hash_X (z : Z) : string :=
  if as_unsigned z =? 0 then "0"%string else ("0X" ++ fmt_X z)%string.

(** ** The error handler *)

Definition NumberOf_xmsg : nat := 512.
Definition NumberOf_errorString : nat := 1024.

Definition ErrorHandler (srv : XServer) (g : AutotypeGlobals) (event : XErrorEvent)
  : AutotypeGlobals :=
  let xmsg := XGetErrorText srv (error_code event) (NumberOf_xmsg - 1) in
  {| error_detected := true;
     errorString :=
       snprintf (NumberOf_errorString - 1)
         ("X error (" ++ fmt_d (request_code event) ++ "): " ++ xmsg) |}.

(** Xlib calls the registered handler once per error, in order.  Only the
    handler of this file touches [atGlobals]. *)
Definition deliver (srv : XServer) (h : XErrorHandler) (g : AutotypeGlobals)
  (errs : list XErrorEvent) : AutotypeGlobals :=
  match h with
  | AutotypeHandler => fold_left (ErrorHandler srv) errs g
  | _ => g
  end.

(** ** Record updates *)

Definition set_globals (g : AutotypeGlobals) (p : Process) : Process :=
  {| atGlobals := g; checked := checked p; useXTest := useXTest p;
     handler := handler p; requests := requests p |}.

Definition set_error_detected (b : bool) (p : Process) : Process :=
  set_globals {| error_detected := b; errorString := errorString (atGlobals p) |} p.

Definition set_errorString (s : string) (p : Process) : Process :=
  set_globals {| error_detected := error_detected (atGlobals p); errorString := s |} p.

Definition XSetErrorHandler (h : XErrorHandler) (p : Process) : Process :=
  {| atGlobals := atGlobals p; checked := checked p; useXTest := useXTest p;
     handler := h; requests := requests p |}.

Definition set_type (t : Z) (e : XKeyEvent) : XKeyEvent :=
  {| ev_type := t; ev_window := ev_window e; ev_keycode := ev_keycode e;
     ev_state := ev_state e; ev_time := ev_time e |}.

Definition set_keycode (k : KeyCode) (e : XKeyEvent) : XKeyEvent :=
  {| ev_type := ev_type e; ev_window := ev_window e; ev_keycode := k;
     ev_state := ev_state e; ev_time := ev_time e |}.

Definition set_state_time (s t : Z) (e : XKeyEvent) : XKeyEvent :=
  {| ev_type := ev_type e; ev_window := ev_window e; ev_keycode := ev_keycode e;
     ev_state := s; ev_time := t |}.

Definition is_key_event (a : Action) : bool :=
  match a with
  | XTestFakeKeyEvent _ _ _ | XSendEvent _ _ _ _ => true
  | _ => false
  end.

Definition is_XTest_action (a : Action) : bool :=
  match a with
  | XTestFakeKeyEvent _ _ _ | XTestGrabControl _ => true
  | _ => false
  end.

Definition is_XSendEvent (a : Action) : bool :=
  match a with
  | XSendEvent _ _ _ _ => true
  | _ => false
  end.

Definition VT : Z := 0x0B.
Definition nl : string := String (ascii_of_nat 10) EmptyString.

(** ** The program *)

Section XSendString.

(** unicode2keysym.h and its table are not among the sources; the libc
    conversion [wcrtomb] depends on the locale ([None] is its failure). *)
Variable unicode2keysym : Z -> KeySym.
Variable wcrtomb : Z -> option string.
Variable srv : XServer.

(** An X call that goes to the server: it joins the history, and the errors
    the server answers with reach the registered handler. *)
Definition issue (a : Action) (p : Process) : Process :=
  let history := requests p ++ [a] in
  {| atGlobals := deliver srv (handler p) (atGlobals p) (XErrors srv history);
     checked := checked p; useXTest := useXTest p;
     handler := handler p; requests := history |}.

Definition pws_os_sleep_ms (ms : Z) (p : Process) : Process :=
  {| atGlobals := atGlobals p; checked := checked p; useXTest := useXTest p;
     handler := handler p; requests := requests p ++ [sleep_ms ms] |}.

Definition XTest_SendEvent (event : XKeyEvent) (p : Process) : Process :=
  issue (XTestFakeKeyEvent (ev_keycode event) (ev_type event =? KeyPress) 0) p.

Definition XSendKeys_SendEvent (event : XKeyEvent) (p : Process) : Process :=
  issue (XSendEvent (ev_window event) true KeyPressMask event) p.

Definition XSendKeys_SendKeyEvent (event : XKeyEvent) (p : Process)
  : XKeyEvent * Process :=
  let event := set_type KeyPress event in
  let p := XSendKeys_SendEvent event p in
  let event := set_type KeyRelease event in
  let p := XSendKeys_SendEvent event p in
  (event, issue XFlush p).

Definition XTest_SendKeyEvent (event : XKeyEvent) (p : Process)
  : XKeyEvent * Process :=
  let shifted := negb (Z.land (ev_state event) ShiftMask =? 0) in
  let shiftEvent :=
    set_type KeyPress (set_keycode (XKeysymToKeycode srv XK_Shift_L) event) in
  let p := if shifted then XTest_SendEvent shiftEvent p else p in
  let event := set_type KeyPress event in
  let p := XTest_SendEvent event p in
  let event := set_type KeyRelease event in
  let p := XTest_SendEvent event p in
  let p := if shifted then XTest_SendEvent (set_type KeyRelease shiftEvent) p else p in
  (event, issue XFlush p).

Definition UseXTest (p : Process) : bool * Process :=
  let p' :=
    if negb (checked p)
    then {| atGlobals := atGlobals p; checked := true;
            useXTest := XQueryExtension srv "XTEST";
            handler := handler p; requests := requests p |}
    else p in
  (useXTest p', p').

(* the inner loop of FindModifierMask: for (j = ...; j < keysyms_per_keycode; j++) *)
Fixpoint symlist_has (symlist : list KeySym) (j : nat) (count : nat) (sym : KeySym)
  : bool :=
  match count with
  | O => false
  | S c =>
      if sym =? nth j symlist NoSymbol then true
      else symlist_has symlist (S j) c sym
  end.

(* its outer loop; [fuel] is the number of indices left before [last] *)
Fixpoint FindModifierMask_loop (modmap : XModifierKeymap) (sym : KeySym)
  (fuel : nat) (i : Z) (modmask : Z) : Z :=
  match fuel with
  | O => modmask
  | S f =>
      if (i <? 8 * max_keypermod modmap) && (modmask =? 0) then
        let kc := nth (Z.to_nat i) (modifiermap modmap) 0 in
        if kc =? 0 then FindModifierMask_loop modmap sym f (i + 1) modmask
        else
          match XGetKeyboardMapping srv kc with
          | Some (symlist, keysyms_per_keycode) =>
              let modmask :=
                if symlist_has symlist 0 (Z.to_nat keysyms_per_keycode) sym
                then Z.quot i (max_keypermod modmap) else modmask in
              FindModifierMask_loop modmap sym f (i + 1) modmask
          | None => FindModifierMask_loop modmap sym f (i + 1) modmask
          end
      else modmask
  end.

Definition FindModifierMask (sym : KeySym) : Z :=
  match XGetModifierMapping srv with
  | Some modmap =>
      let first := Mod1MapIndex * max_keypermod modmap in
      let last := 8 * max_keypermod modmap in
      FindModifierMask_loop modmap sym (Z.to_nat (last - first)) first 0
  | None => 0
  end.

(* one round of the loop over {XK_Mode_switch, XK_ISO_Level3_Shift} *)
Definition add_extra_masks (masks : list Z) (s : KeySym) : list Z :=
  let modshift := FindModifierMask s in
  if negb (modshift =? 0) && negb (existsb (Z.eqb (Z.shiftl 1 modshift)) masks)
  then masks ++ map (fun m => Z.lor m (Z.shiftl 1 modshift)) masks
  else masks.

Definition candidate_masks : list Z :=
  fold_left add_extra_masks [XK_Mode_switch; XK_ISO_Level3_Shift] [0; ShiftMask].

(* std::find(symlist + first, symlist + first + count, sym) - symlist *)
Fixpoint std_find (symlist : list KeySym) (first count : nat) (sym : KeySym) : nat :=
  match count with
  | O => first
  | S c =>
      if nth first symlist NoSymbol =? sym then first
      else std_find symlist (S first) c sym
  end.

Definition CalcModifiersForKeysym (code : KeyCode) (sym : KeySym) : Z :=
  match XGetKeyboardMapping srv code with
  | Some (symlist, keysyms_per_keycode) =>
      if 0 <? keysyms_per_keycode then
        let masks := candidate_masks in
        let max_keysym_index :=
          Nat.min (List.length masks) (Z.to_nat keysyms_per_keycode) in
        let match_index := std_find symlist 0 max_keysym_index sym in
        if negb (Nat.eqb match_index max_keysym_index)
        then nth match_index masks 0
        else 0
      else 0
  | None => 0
  end.

(** The same function with every array access checked: [None] is a read
    outside [symlist] or [masks]. *)
Fixpoint std_find_checked (symlist : list KeySym) (first count : nat) (sym : KeySym)
  : option nat :=
  match count with
  | O => Some first
  | S c =>
      match nth_error symlist first with
      | None => None
      | Some s =>
          if s =? sym then Some first
          else std_find_checked symlist (S first) c sym
      end
  end.

Definition CalcModifiersForKeysym_checked (code : KeyCode) (sym : KeySym)
  : option Z :=
  match XGetKeyboardMapping srv code with
  | Some (symlist, keysyms_per_keycode) =>
      if 0 <? keysyms_per_keycode then
        let masks := candidate_masks in
        let max_keysym_index :=
          Nat.min (List.length masks) (Z.to_nat keysyms_per_keycode) in
        match std_find_checked symlist 0 max_keysym_index sym with
        | None => None
        | Some match_index =>
            if negb (Nat.eqb match_index max_keysym_index)
            then nth_error masks match_index
            else Some 0
        end
      else Some 0
  | None => Some 0
  end.

Definition wchar2keysym (wc : Z) : KeySym :=
  if wc <? 0x100 then
    if 0x20 <=? wc then wc
    else if wc =? 0x09 then XK_Tab
    else if wc =? 0x0D then XK_Return
    else if wc =? 0x0A then XK_Linefeed
    else if wc =? 0x08 then XK_BackSpace
    else if wc =? 0x7F then XK_Delete
    else if wc =? 0x1B then XK_Escape
    else NoSymbol
  else if (0x10ffff <? wc) || ((0x7e <? wc) && (wc <? 0xa0)) then NoSymbol
  else
    let sym := unicode2keysym wc in
    if negb (sym =? NoSymbol) then sym
    else Z.lor wc 0x01000000.

(* bytes is a char*, so NumberOf(bytes) is the size of a pointer *)
Definition NumberOf_bytes : nat := 8.

Definition wchar2bytes (wc : Z) : string :=
  match wcrtomb wc with
  | None => snprintf NumberOf_bytes ("U+" ++ fmt_04X wc)
  | Some bytes => bytes
  end.

Inductive Resolution :=
| AllResolved (keypresses : list KeyPressInfo)
| Aborted (msg : string).

Definition keycode_message (wc : Z) (sym : KeySym) : string :=
  let symStr := match XKeysymToString srv sym with
                | Some s => s
                | None => "NULL"%string
                end in
  snprintf NumberOf_errorString
    ("Could not get keycode for key char(" ++ wchar2bytes wc ++ ") - sym("
     ++ fmt_hash_X sym ++ ") - str(" ++ symStr ++ "). Aborting autotype."
     ++ nl ++ nl
     ++ "If 'xmodmap -pk' does not list this KeySym, you probably need to install an appropriate keyboard layout.").

Definition keysym_message (wc : Z) : string :=
  snprintf NumberOf_errorString
    ("Cannot convert '" ++ wchar2bytes wc ++ "' [U+" ++ fmt_04X wc
     ++ "] to keysym. Aborting autotype").

(* the first loop of DoSendString, from the iterator position [str] on *)
Fixpoint resolve (str : list Z) (keypresses : list KeyPressInfo) : Resolution :=
  match str with
  | [] => AllResolved keypresses
  | c :: rest =>
      if c =? VT then resolve rest keypresses
      else
        let sym := wchar2keysym c in
        if negb (NoSymbol =? sym) then
          let kc := XKeysymToKeycode srv sym in
          if negb (kc =? 0) then
            let keypress :=
              {| code := kc; state := Z.lor 0 (CalcModifiersForKeysym kc sym) |} in
            resolve rest (keypresses ++ [keypress])
          else Aborted (keycode_message c sym)
        else Aborted (keysym_message c)
  end.

(* the second loop *)
Fixpoint inject (KeySendFunction : XKeyEvent -> Process -> XKeyEvent * Process)
  (delayMS : Z) (keypresses : list KeyPressInfo) (event : XKeyEvent) (p : Process)
  : XKeyEvent * Process :=
  match keypresses with
  | [] => (event, p)
  | k :: rest =>
      if error_detected (atGlobals p) then (event, p)
      else
        let event := set_state_time (state k) CurrentTime (set_keycode (code k) event) in
        let (event, p) := KeySendFunction event p in
        inject KeySendFunction delayMS rest event (pws_os_sleep_ms delayMS p)
  end.

(* AutotypeEvent(): the fields the constructor leaves alone read 0 here;
   each is assigned before it is used *)
Definition AutotypeEvent : XKeyEvent :=
  {| ev_type := 0; ev_window := XGetInputFocus srv; ev_keycode := 0;
     ev_state := 0; ev_time := 0 |}.

Definition DoSendString (str : list Z) (method : AutotypeMethod) (delayMS : Z)
  (p : Process) : Outcome * Process :=
  let p := set_error_detected false p in
  let p := set_errorString "" p in
  if negb (XOpenDisplay srv) then
    let p := if negb (error_detected (atGlobals p))
             then set_error_detected true p else p in
    let p := if (String.length (errorString (atGlobals p)) =? 0)%nat
             then set_errorString
                    (strncpy NumberOf_errorString
                       "Could not open X display for autotyping") p
             else p in
    (Thrown, p)
  else
    let event := AutotypeEvent in
    match resolve str [] with
    | Aborted msg =>
        (Returned, set_error_detected true (set_errorString msg p))
    | AllResolved keypresses =>
        let p := XSetErrorHandler AutotypeHandler p in
        let p := set_error_detected false p in
        let (reported, p) := UseXTest p in
        let useXTEST := reported && negb (is_XSENDKEYS method) in
        let KeySendFunction :=
          if useXTEST then XTest_SendKeyEvent else XSendKeys_SendKeyEvent in
        let p := if useXTEST then issue (XTestGrabControl true) p else p in
        let (_, p) := inject KeySendFunction delayMS keypresses event p in
        let p := if useXTEST then issue (XTestGrabControl false) p
                 else issue (XSync false) p in
        (Returned, XSetErrorHandler DefaultHandler p)
    end.

Definition SendString (str : list Z) (method : AutotypeMethod) (delayMS : Z)
  (p : Process) : Outcome * Process :=
  let p := set_error_detected false p in
  let p := set_errorString "" p in
  match DoSendString str method delayMS p with
  | (Thrown, p) => (Thrown, p)
  | (Returned, p) =>
      if error_detected (atGlobals p) then (Thrown, p) else (Returned, p)
  end.


(** ** Vocabulary of the properties *)

(* the characters the first loop does not skip *)
Definition retained (str : list Z) : list Z :=
  filter (fun c => negb (c =? VT)) str.

(* a character resolves: it has a symbolic key, and that key a key code *)
Definition resolvable (c : Z) : bool :=
  negb (NoSymbol =? wchar2keysym c)
  && negb (XKeysymToKeycode srv (wchar2keysym c) =? 0).

Definition keypress_of (c : Z) : KeyPressInfo :=
  let sym := wchar2keysym c in
  let kc := XKeysymToKeycode srv sym in
  {| code := kc; state := Z.lor 0 (CalcModifiersForKeysym kc sym) |}.

(* the requests a call has added to the history it started from *)
Definition issued_by (before after : Process) : list Action :=
  skipn (List.length (requests before)) (requests after).

(* [after] has the statics of [before], its history and, behind it, actions
   that all satisfy [P] *)
Definition appends (P : Action -> bool) (before after : Process) : Prop :=
  (checked after = checked before /\ useXTest after = useXTest before)
  /\ exists added,
       requests after = requests before ++ added /\ forallb P added = true.

Definition not_XTest (a : Action) : bool := negb (is_XTest_action a).
Definition not_XSendEvent (a : Action) : bool := negb (is_XSendEvent a).

(* what the fallback method sends first for a key press *)
Definition first_XSendEvent (k : KeyPressInfo) : Action :=
  XSendEvent (XGetInputFocus srv) true KeyPressMask
    {| ev_type := KeyPress; ev_window := XGetInputFocus srv;
       ev_keycode := code k; ev_state := state k; ev_time := CurrentTime |}.

(* DoSendString from XSetErrorHandler(ErrorHandler) to the last X call,
   with the strategy already chosen *)
Definition injection_phase (useXTEST : bool) (delayMS : Z)
  (keypresses : list KeyPressInfo) (p : Process) : Process :=
  let KeySendFunction :=
    if useXTEST then XTest_SendKeyEvent else XSendKeys_SendKeyEvent in
  let p := if useXTEST then issue (XTestGrabControl true) p else p in
  let p := snd (inject KeySendFunction delayMS keypresses AutotypeEvent p) in
  if useXTEST then issue (XTestGrabControl false) p else issue (XSync false) p.

(* the globals as DoSendString sets them on entry *)
Definition clean : AutotypeGlobals :=
  {| error_detected := false; errorString := "" |}.

(* the statics of UseXTest hold what this server answers *)
Definition UseXTest_static_ok (p : Process) : Prop :=
  checked p = true -> useXTest p = XQueryExtension srv "XTEST".

(* XGetKeyboardMapping hands out at least keysyms_per_keycode symbols *)
Definition mapping_ok (code : KeyCode) : Prop :=
  forall symlist keysyms_per_keycode,
    XGetKeyboardMapping srv code = Some (symlist, keysyms_per_keycode) ->
    keysyms_per_keycode <= Z.of_nat (List.length symlist).

(** ** Vocabulary of the further properties *)

(* X.h: the modifier bits the resolver has no candidate for *)
Definition LockMask : Z := 2.
Definition ControlMask : Z := 4.

(* the answer UseXTest gives: the statics once they are set, else the server *)
Definition reported_XTEST (p : Process) : bool :=
  if checked p then useXTest p else XQueryExtension srv "XTEST".

(* the key events of one key press, by method *)
Definition XTest_keys (k : KeyPressInfo) : list Action :=
  let shifted := negb (Z.land (state k) ShiftMask =? 0) in
  let shift := XKeysymToKeycode srv XK_Shift_L in
  (if shifted then [XTestFakeKeyEvent shift true 0] else [])
  ++ [XTestFakeKeyEvent (code k) true 0; XTestFakeKeyEvent (code k) false 0]
  ++ (if shifted then [XTestFakeKeyEvent shift false 0] else []).

Definition XSendKeys_event (k : KeyPressInfo) (type : Z) : XKeyEvent :=
  {| ev_type := type; ev_window := XGetInputFocus srv;
     ev_keycode := code k; ev_state := state k; ev_time := CurrentTime |}.

Definition XSendKeys_keys (k : KeyPressInfo) : list Action :=
  [XSendEvent (XGetInputFocus srv) true KeyPressMask (XSendKeys_event k KeyPress);
   XSendEvent (XGetInputFocus srv) true KeyPressMask (XSendKeys_event k KeyRelease)].

(* one round of the second loop of DoSendString *)
Definition key_block (useXTEST : bool) (delayMS : Z) (k : KeyPressInfo)
  : list Action :=
  (if useXTEST then XTest_keys k else XSendKeys_keys k)
  ++ [XFlush; sleep_ms delayMS].

(* everything a call issues when it sends the key presses [keypresses] *)
Definition call_trace (useXTEST : bool) (delayMS : Z)
  (keypresses : list KeyPressInfo) : list Action :=
  (if useXTEST then [XTestGrabControl true] else [])
  ++ flat_map (key_block useXTEST delayMS) keypresses
  ++ [if useXTEST then XTestGrabControl false else XSync false].

(* presses minus releases of the key [kc] *)
Definition key_balance (kc : KeyCode) (a : Action) : Z :=
  match a with
  | XTestFakeKeyEvent k is_press _ =>
      if k =? kc then (if is_press then 1 else -1) else 0
  | XSendEvent _ _ _ ev =>
      if ev_keycode ev =? kc then
        (if ev_type ev =? KeyPress then 1
         else if ev_type ev =? KeyRelease then -1 else 0)
      else 0
  | _ => 0
  end.

Definition held (kc : KeyCode) (l : list Action) : Z :=
  fold_right (fun a n => key_balance kc a + n) 0 l.

(* slot [i] of the modifier map holds a key that types [sym] *)
Definition slot_has (modmap : XModifierKeymap) (sym : KeySym) (i : Z) : bool :=
  let kc := nth (Z.to_nat i) (modifiermap modmap) 0 in
  negb (kc =? 0)
  && match XGetKeyboardMapping srv kc with
     | Some (symlist, keysyms_per_keycode) =>
         symlist_has symlist 0 (Z.to_nat keysyms_per_keycode) sym
     | None => false
     end.

Definition shift_only (k : KeyPressInfo) : KeyPressInfo :=
  {| code := code k; state := Z.land (state k) ShiftMask |}.

(* the flag and the text go together, and the text fits its buffer *)
Definition globals_ok (g : AutotypeGlobals) : Prop :=
  (error_detected g = false -> errorString g = ""%string)
  /\ (error_detected g = true -> errorString g <> ""%string)
  /\ (String.length (errorString g) < NumberOf_errorString)%nat.

(* the message the first loop leaves for a character it cannot resolve *)
Definition abort_message (c : Z) : string :=
  if NoSymbol =? wchar2keysym c then keysym_message c
  else keycode_message c (wchar2keysym c).

(** ** Concrete servers, for running the program *)

(* a four-level layout: key 38 types a A ae AE, key 10 types 1 ! and two
   third-level signs; ISO_Level3_Shift (key 92) and Mode_switch (key 203)
   both sit on Mod5 *)
Definition demo_keycode (sym : KeySym) : KeyCode :=
  if (sym =? 0x61) || (sym =? 0x41) || (sym =? 0xe6) || (sym =? 0xc6) then 38
  else if (sym =? 0x31) || (sym =? 0x21) || (sym =? 0xb9) || (sym =? 0xa1) then 10
  else if sym =? XK_Shift_L then 50
  else if sym =? XK_ISO_Level3_Shift then 92
  else if sym =? XK_Mode_switch then 203
  else 0.

Definition demo_mapping (kc : KeyCode) : option (list KeySym * Z) :=
  if kc =? 38 then Some ([0x61; 0x41; 0xe6; 0xc6], 4)
  else if kc =? 10 then Some ([0x31; 0x21; 0xb9; 0xa1], 4)
  else if kc =? 50 then Some ([XK_Shift_L; NoSymbol; NoSymbol; NoSymbol], 4)
  else if kc =? 92 then Some ([XK_ISO_Level3_Shift; NoSymbol; NoSymbol; NoSymbol], 4)
  else if kc =? 203 then Some ([XK_Mode_switch; NoSymbol; NoSymbol; NoSymbol], 4)
  else None.

Definition demo_modmap : XModifierKeymap :=
  {| max_keypermod := 2;
     modifiermap := [50; 62; 66; 0; 37; 105; 64; 0; 77; 0; 0; 0; 133; 0; 92; 203] |}.

Definition demo_error_text (code : Z) (n : nat) : string :=
  substring 0 (n - 1) (if code =? 2 then "BadValue" else "BadWindow").

Definition demo_server : XServer :=
  {| XOpenDisplay := true;
     XGetInputFocus := 77;
     XKeysymToKeycode := demo_keycode;
     XKeysymToString := fun _ => None;
     XGetKeyboardMapping := demo_mapping;
     XGetModifierMapping := Some demo_modmap;
     XQueryExtension := fun _ => true;
     XGetErrorText := demo_error_text;
     XErrors := fun _ => [] |}.

(* the same server without the XTEST extension *)
Definition plain_server : XServer :=
  {| XOpenDisplay := true;
     XGetInputFocus := 77;
     XKeysymToKeycode := demo_keycode;
     XKeysymToString := fun _ => None;
     XGetKeyboardMapping := demo_mapping;
     XGetModifierMapping := Some demo_modmap;
     XQueryExtension := fun _ => false;
     XGetErrorText := demo_error_text;
     XErrors := fun _ => [] |}.

(* a layout that binds key 200 to the keysym 0x80 *)
Definition c1_server : XServer :=
  {| XOpenDisplay := true;
     XGetInputFocus := 77;
     XKeysymToKeycode := fun sym => if sym =? 0x80 then 200 else demo_keycode sym;
     XKeysymToString := fun _ => None;
     XGetKeyboardMapping :=
       fun kc => if kc =? 200 then Some ([0x80], 1) else demo_mapping kc;
     XGetModifierMapping := Some demo_modmap;
     XQueryExtension := fun _ => true;
     XGetErrorText := demo_error_text;
     XErrors := fun _ => [] |}.

Definition no_table (wc : Z) : KeySym := NoSymbol.
Definition no_locale (wc : Z) : option string := None.

Definition fresh_process : Process :=
  {| atGlobals := {| error_detected := false; errorString := "" |};
     checked := false; useXTest := false;
     handler := DefaultHandler; requests := [] |}.

(* a process whose toolkit has registered an error handler of its own *)
Definition toolkit_process : Process :=
  {| atGlobals := {| error_detected := false; errorString := "" |};
     checked := false; useXTest := false;
     handler := ForeignHandler 1; requests := [] |}.

Definition BadWindow_event : XErrorEvent :=
  {| error_code := 3; request_code := 25; minor_code := 0 |}.

Definition BadValue_event : XErrorEvent :=
  {| error_code := 2; request_code := 132; minor_code := 2 |}.

(* the server without XTEST again, now answering the final XSync with two
   errors that had been pending *)
Definition faulty_server : XServer :=
  {| XOpenDisplay := true;
     XGetInputFocus := 77;
     XKeysymToKeycode := demo_keycode;
     XKeysymToString := fun _ => None;
     XGetKeyboardMapping := demo_mapping;
     XGetModifierMapping := Some demo_modmap;
     XQueryExtension := fun _ => false;
     XGetErrorText := demo_error_text;
     XErrors := fun history =>
                  match last history XFlush with
                  | XSync _ => [BadWindow_event; BadValue_event]
                  | _ => []
                  end |}.


(** ** Properties *)

Ltac bool_cases :=
  repeat match goal with
    | |- context [?a <? ?b] => destruct (Z.ltb_spec a b)
    | |- context [?a <=? ?b] => destruct (Z.leb_spec a b)
    | |- context [?a =? ?b] => destruct (Z.eqb_spec a b)
    end; simpl.

(** *** The code-point resolver *)

Lemma unicode_fallback_nonzero (wc : Z) : Z.lor wc 0x01000000 <> NoSymbol.
Proof.
  unfold NoSymbol. intro H. apply Z.lor_eq_0_iff in H. destruct H; discriminate.
Qed.

Lemma wchar2keysym_latin1 (wc : Z) :
  0x20 <= wc <= 0xFF -> wchar2keysym wc = wc.
Proof.
  intros [Hlo Hhi]. unfold wchar2keysym.
  destruct (Z.ltb_spec wc 0x100); [|lia].
  destruct (Z.leb_spec 0x20 wc); [reflexivity|lia].
Qed.

Lemma wchar2keysym_beyond_latin1 (wc : Z) :
  0xFF < wc <= 0x10FFFF ->
  wchar2keysym wc =
    if unicode2keysym wc =? NoSymbol then Z.lor wc 0x01000000
    else unicode2keysym wc.
Proof.
  intros [Hlo Hhi]. unfold wchar2keysym.
  destruct (Z.ltb_spec wc 0x100); [lia|].
  destruct (Z.ltb_spec 0x10ffff wc); [lia|].
  destruct (Z.ltb_spec wc 0xa0); [lia|].
  rewrite andb_false_r. simpl.
  destruct (unicode2keysym wc =? NoSymbol); reflexivity.
Qed.

Lemma wchar2keysym_NoSymbol_iff (wc : Z) :
  wchar2keysym wc = NoSymbol <->
  (wc < 0x20 /\ ~ In wc [0x08; 0x09; 0x0A; 0x0D; 0x1B]) \/ 0x10FFFF < wc.
Proof.
  destruct (Z.lt_ge_cases wc 0x20) as [Hc|Hc].
  - (* below the space character: the switch decides *)
    unfold wchar2keysym.
    destruct (Z.ltb_spec wc 0x100); [|lia].
    destruct (Z.leb_spec 0x20 wc); [lia|].
    unfold XK_Tab, XK_Return, XK_Linefeed, XK_BackSpace, XK_Delete, XK_Escape,
      NoSymbol.
    bool_cases; lia.
  - destruct (Z.le_gt_cases wc 0xFF) as [Hl|Hl].
    + rewrite wchar2keysym_latin1 by lia. unfold NoSymbol. split; [lia|].
      intros [[? _]|?]; lia.
    + destruct (Z.le_gt_cases wc 0x10FFFF) as [Hu|Hu].
      * rewrite wchar2keysym_beyond_latin1 by lia.
        split.
        -- destruct (Z.eqb_spec (unicode2keysym wc) NoSymbol) as [E|E]; intro Hx.
           ++ exfalso. exact (unicode_fallback_nonzero wc Hx).
           ++ contradiction.
        -- intros [[? _]|?]; lia.
      * split; [intros _; right; exact Hu|]. intros _.
        unfold wchar2keysym.
        destruct (Z.ltb_spec wc 0x100); [lia|].
        destruct (Z.ltb_spec 0x10ffff wc); [reflexivity|lia].
Qed.

(** C9. [wchar2keysym] is a function on every [wchar_t] value; it answers
    [NoSymbol] exactly for the values below 0x20 other than backspace, tab,
    linefeed, carriage return and escape, and for the values above 0x10FFFF.
    Every value in 0x20..0xFF, the block 0x7F..0x9F included, is its own
    symbolic key, and every other value up to 0x10FFFF yields the entry of
    the lookup table or, where the table has none, the value OR'd with
    0x01000000. *)
Theorem wchar2keysym_characterization (wc : Z) :
  (wchar2keysym wc = NoSymbol <->
     (wc < 0x20 /\ ~ In wc [0x08; 0x09; 0x0A; 0x0D; 0x1B]) \/ 0x10FFFF < wc)
  /\ (0x20 <= wc <= 0xFF -> wchar2keysym wc = wc)
  /\ (0x7F <= wc <= 0x9F -> wchar2keysym wc = wc)
  /\ (0xFF < wc <= 0x10FFFF ->
        wchar2keysym wc =
          if unicode2keysym wc =? NoSymbol then Z.lor wc 0x01000000
          else unicode2keysym wc).
Proof.
  split; [apply wchar2keysym_NoSymbol_iff|].
  split; [apply wchar2keysym_latin1|].
  split; [intros; apply wchar2keysym_latin1; lia|].
  apply wchar2keysym_beyond_latin1.
Qed.


(** *** The error handler *)

Lemma deliver_last (g : AutotypeGlobals) (es : list XErrorEvent) (e : XErrorEvent) :
  deliver srv AutotypeHandler g (es ++ [e]) =
  ErrorHandler srv (deliver srv AutotypeHandler g es) e.
Proof. unfold deliver. rewrite fold_left_app. reflexivity. Qed.

Lemma deliver_keeps_flag (h : XErrorHandler) (g : AutotypeGlobals)
  (es : list XErrorEvent) :
  error_detected g = true -> error_detected (deliver srv h g es) = true.
Proof.
  destruct h; simpl; auto.
  revert g. induction es as [|e es IH]; simpl; intros g Hg; [assumption|].
  apply IH. reflexivity.
Qed.

(** C3, as the code has it.  Every call of the handler sets the flag and
    writes the text of the error at hand over the recorded one: the flag,
    once set, stays set, and after a run of errors the recorded text is the
    one of the last error, whatever was recorded before. *)
Theorem ErrorHandler_records_latest
  (g : AutotypeGlobals) (es : list XErrorEvent) (e : XErrorEvent) :
  let g' := deliver srv AutotypeHandler g (es ++ [e]) in
  error_detected g' = true
  /\ errorString g' =
       snprintf (NumberOf_errorString - 1)
         ("X error (" ++ fmt_d (request_code e) ++ "): "
          ++ XGetErrorText srv (error_code e) (NumberOf_xmsg - 1))
  /\ error_detected (ErrorHandler srv g e) = true
  /\ errorString (ErrorHandler srv g e) = errorString g'.
Proof.
  cbv zeta. rewrite deliver_last. repeat split; reflexivity.
Qed.

(** *** The resolution pass *)

Lemma resolve_cons (c : Z) (rest : list Z) (keypresses : list KeyPressInfo) :
  resolve (c :: rest) keypresses =
  if c =? VT then resolve rest keypresses
  else if resolvable c then resolve rest (keypresses ++ [keypress_of c])
  else Aborted (if NoSymbol =? wchar2keysym c then keysym_message c
                else keycode_message c (wchar2keysym c)).
Proof.
  unfold resolvable, keypress_of. cbn [resolve].
  destruct (c =? VT); [reflexivity|].
  destruct (NoSymbol =? wchar2keysym c); [reflexivity|].
  destruct (XKeysymToKeycode srv (wchar2keysym c) =? 0); reflexivity.
Qed.

Lemma retained_cons (c : Z) (rest : list Z) :
  retained (c :: rest) = if c =? VT then retained rest else c :: retained rest.
Proof. unfold retained. cbn [filter]. destruct (c =? VT); reflexivity. Qed.

Lemma resolve_retained (str : list Z) (keypresses : list KeyPressInfo) :
  resolve str keypresses = resolve (retained str) keypresses.
Proof.
  revert keypresses. induction str as [|c rest IH]; intro ks; [reflexivity|].
  rewrite retained_cons, resolve_cons. destruct (c =? VT) eqn:E; [apply IH|].
  rewrite resolve_cons, E. destruct (resolvable c); [apply IH|reflexivity].
Qed.

Lemma resolve_all (str : list Z) (keypresses : list KeyPressInfo) :
  forallb resolvable (retained str) = true ->
  resolve str keypresses =
  AllResolved (keypresses ++ map keypress_of (retained str)).
Proof.
  revert keypresses. induction str as [|c rest IH]; intros ks H.
  - cbn. rewrite app_nil_r. reflexivity.
  - rewrite retained_cons in *. rewrite resolve_cons.
    destruct (c =? VT); [apply IH, H|].
    cbn [forallb map] in *. apply andb_prop in H. destruct H as [Hc Hrest].
    rewrite Hc, (IH _ Hrest), <- app_assoc. reflexivity.
Qed.

Lemma resolve_abort (str : list Z) (keypresses : list KeyPressInfo) :
  forallb resolvable (retained str) = false ->
  exists msg, resolve str keypresses = Aborted msg.
Proof.
  revert keypresses. induction str as [|c rest IH]; intros ks H.
  - discriminate.
  - rewrite retained_cons in H. rewrite resolve_cons.
    destruct (c =? VT); [apply IH, H|].
    cbn [forallb] in H. destruct (resolvable c); [apply IH, H|eauto].
Qed.

Lemma unresolved_member (str : list Z) (c : Z) :
  In c str -> c <> VT -> resolvable c = false ->
  forallb resolvable (retained str) = false.
Proof.
  intros Hin Hvt Hc.
  destruct (forallb resolvable (retained str)) eqn:E; [|reflexivity].
  rewrite forallb_forall in E. rewrite <- Hc. symmetry. apply E.
  unfold retained. apply filter_In. split; [assumption|].
  destruct (Z.eqb_spec c VT); [contradiction|reflexivity].
Qed.

(** The three ways out of [DoSendString]. *)
Lemma DoSendString_no_display str method delayMS p :
  XOpenDisplay srv = false ->
  DoSendString str method delayMS p =
  (Thrown,
   set_globals
     {| error_detected := true;
        errorString := "Could not open X display for autotyping" |} p).
Proof.
  intro H. unfold DoSendString. rewrite H. reflexivity.
Qed.

Lemma DoSendString_aborted str method delayMS p msg :
  XOpenDisplay srv = true ->
  resolve str [] = Aborted msg ->
  DoSendString str method delayMS p =
  (Returned, set_globals {| error_detected := true; errorString := msg |} p).
Proof.
  intros H1 H2. unfold DoSendString. rewrite H1, H2. reflexivity.
Qed.


(** *** The injection pass *)

Lemma appends_refl P p : appends P p p.
Proof. split; [auto|]. exists []. rewrite app_nil_r. split; reflexivity. Qed.

Lemma appends_trans P p q r : appends P p q -> appends P q r -> appends P p r.
Proof.
  intros [[C1 U1] [a [Ha Pa]]] [[C2 U2] [b [Hb Pb]]].
  split; [split; congruence|]. exists (a ++ b).
  rewrite Hb, Ha, app_assoc, forallb_app, Pa, Pb. split; reflexivity.
Qed.

Lemma appends_issue P a p : P a = true -> appends P p (issue a p).
Proof.
  intro H. split; [auto|]. exists [a]. simpl. rewrite H. split; reflexivity.
Qed.

Lemma appends_sleep P ms p :
  P (sleep_ms ms) = true -> appends P p (pws_os_sleep_ms ms p).
Proof.
  intro H. split; [auto|]. exists [sleep_ms ms]. simpl. rewrite H.
  split; reflexivity.
Qed.

Lemma issued_by_appends P p q :
  appends P p q ->
  requests q = requests p ++ issued_by p q /\ forallb P (issued_by p q) = true.
Proof.
  intros [_ [a [Ha Pa]]]. unfold issued_by.
  rewrite Ha, skipn_app, skipn_all, Nat.sub_diag. simpl. auto.
Qed.

Lemma XSendKeys_SendKeyEvent_appends e p :
  appends not_XTest p (snd (XSendKeys_SendKeyEvent e p)).
Proof.
  unfold XSendKeys_SendKeyEvent, XSendKeys_SendEvent. cbn [snd].
  repeat (eapply appends_trans; [|apply appends_issue; reflexivity]).
  apply appends_refl.
Qed.

Lemma XTest_SendKeyEvent_appends e p :
  appends not_XSendEvent p (snd (XTest_SendKeyEvent e p)).
Proof.
  unfold XTest_SendKeyEvent, XTest_SendEvent. cbn [snd].
  destruct (negb (Z.land (ev_state e) ShiftMask =? 0));
    repeat (eapply appends_trans; [|apply appends_issue; reflexivity]);
    apply appends_refl.
Qed.

Lemma inject_appends P send delayMS keypresses :
  (forall e p, appends P p (snd (send e p))) ->
  P (sleep_ms delayMS) = true ->
  forall e p, appends P p (snd (inject send delayMS keypresses e p)).
Proof.
  intros Hsend Hsleep.
  induction keypresses as [|k rest IH]; intros e p; cbn [inject].
  - apply appends_refl.
  - destruct (error_detected (atGlobals p)); [apply appends_refl|].
    specialize (Hsend (set_state_time (state k) CurrentTime (set_keycode (code k) e)) p).
    destruct (send _ p) as [e' p']. cbn [snd] in Hsend.
    eapply appends_trans; [exact Hsend|].
    eapply appends_trans; [apply appends_sleep, Hsleep|]. apply IH.
Qed.


Lemma DoSendString_resolved str method delayMS p keypresses :
  XOpenDisplay srv = true ->
  resolve str [] = AllResolved keypresses ->
  DoSendString str method delayMS p =
  let p1 := XSetErrorHandler AutotypeHandler (set_globals clean p) in
  let useXTEST := fst (UseXTest p1) && negb (is_XSENDKEYS method) in
  (Returned,
   XSetErrorHandler DefaultHandler
     (injection_phase useXTEST delayMS keypresses (snd (UseXTest p1)))).
Proof.
  intros H1 H2. unfold DoSendString. rewrite H1, H2. cbn [negb]. cbv zeta.
  change (set_error_detected false
            (XSetErrorHandler AutotypeHandler
               (set_errorString "" (set_error_detected false p))))
    with (XSetErrorHandler AutotypeHandler (set_globals clean p)).
  unfold injection_phase.
  destruct (UseXTest _) as [reported p2]. cbn [fst snd].
  destruct (reported && negb (is_XSENDKEYS method));
    destruct (inject _ _ _ _ _); reflexivity.
Qed.

Lemma UseXTest_reports p :
  UseXTest_static_ok p ->
  fst (UseXTest p) = XQueryExtension srv "XTEST".
Proof.
  unfold UseXTest_static_ok, UseXTest. destruct (checked p); cbn; auto.
Qed.

Lemma UseXTest_keeps p :
  requests (snd (UseXTest p)) = requests p
  /\ atGlobals (snd (UseXTest p)) = atGlobals p
  /\ handler (snd (UseXTest p)) = handler p.
Proof. unfold UseXTest. destruct (checked p); cbn; auto. Qed.

Lemma UseXTest_static_ok_kept p :
  UseXTest_static_ok p -> UseXTest_static_ok (snd (UseXTest p)).
Proof.
  unfold UseXTest_static_ok, UseXTest. destruct (checked p); cbn; auto.
Qed.

Lemma appends_behind P a p q :
  appends P (issue a p) q ->
  exists rest, requests q = requests p ++ a :: rest.
Proof.
  intros [_ [added [H _]]]. exists added. rewrite H. cbn. rewrite <- app_assoc.
  reflexivity.
Qed.

Lemma issued_by_head p q a rest :
  requests q = requests p ++ a :: rest -> issued_by p q = a :: rest.
Proof.
  intro H. unfold issued_by.
  rewrite H, skipn_app, skipn_all, Nat.sub_diag. reflexivity.
Qed.

Lemma issued_by_last p q front a :
  requests q = requests p ++ front ++ [a] -> last (issued_by p q) XFlush = a.
Proof.
  intro H. unfold issued_by.
  rewrite H, skipn_app, skipn_all, Nat.sub_diag. cbn [skipn app].
  apply last_last.
Qed.

Lemma forallb_negb_existsb (P : Action -> bool) l :
  forallb (fun a => negb (P a)) l = true -> existsb P l = false.
Proof.
  induction l as [|a l IH]; cbn; [reflexivity|].
  destruct (P a); cbn; [discriminate|exact IH].
Qed.

Lemma appends_static_ok P p q :
  appends P p q -> UseXTest_static_ok p -> UseXTest_static_ok q.
Proof.
  intros [[C U] _] S. unfold UseXTest_static_ok in *. rewrite C, U. exact S.
Qed.

Lemma injection_phase_native delayMS keypresses p :
  let q := injection_phase true delayMS keypresses p in
  appends not_XSendEvent p q
  /\ hd_error (issued_by p q) = Some (XTestGrabControl true).
Proof.
  cbv zeta. unfold injection_phase.
  assert (A : appends not_XSendEvent (issue (XTestGrabControl true) p)
                (issue (XTestGrabControl false)
                   (snd (inject XTest_SendKeyEvent delayMS keypresses AutotypeEvent
                           (issue (XTestGrabControl true) p))))).
  { eapply appends_trans; [|apply appends_issue; reflexivity].
    apply inject_appends; [apply XTest_SendKeyEvent_appends|reflexivity]. }
  split.
  - eapply appends_trans; [|exact A]. apply appends_issue; reflexivity.
  - destruct (appends_behind _ _ _ _ A) as [rest Hr].
    rewrite (issued_by_head _ _ _ _ Hr). reflexivity.
Qed.

Lemma injection_phase_fallback delayMS keypresses p :
  let q := injection_phase false delayMS keypresses p in
  appends not_XTest p q
  /\ last (issued_by p q) XFlush = XSync false
  /\ (error_detected (atGlobals p) = false ->
      forall k rest, keypresses = k :: rest ->
      hd_error (issued_by p q) = Some (first_XSendEvent k)).
Proof.
  cbv zeta. unfold injection_phase.
  pose proof (inject_appends not_XTest XSendKeys_SendKeyEvent delayMS keypresses
                XSendKeys_SendKeyEvent_appends eq_refl AutotypeEvent p) as A.
  split; [|split].
  - eapply appends_trans; [exact A|apply appends_issue; reflexivity].
  - destruct A as [_ [added [Ha _]]].
    apply (issued_by_last _ _ added). cbn. rewrite Ha, <- app_assoc. reflexivity.
  - intros Hflag k rest ->. cbn [inject]. rewrite Hflag.
    destruct (XSendKeys_SendKeyEvent _ p) as [e' p'] eqn:E.
    pose proof (inject_appends not_XTest XSendKeys_SendKeyEvent delayMS rest
                  XSendKeys_SendKeyEvent_appends eq_refl e'
                  (pws_os_sleep_ms delayMS p')) as [_ [added [Ha _]]].
    unfold XSendKeys_SendKeyEvent in E. injection E as _ E. subst p'.
    erewrite issued_by_head; [reflexivity|].
    cbn. rewrite Ha. cbn. repeat rewrite <- app_assoc. reflexivity.
Qed.


(** *** Whole calls *)

Lemma SendString_unfold str method delayMS p :
  SendString str method delayMS p =
  match DoSendString str method delayMS (set_globals clean p) with
  | (Thrown, q) => (Thrown, q)
  | (Returned, q) =>
      if error_detected (atGlobals q) then (Thrown, q) else (Returned, q)
  end.
Proof. reflexivity. Qed.

Lemma issued_by_nothing p q : requests q = requests p -> issued_by p q = [].
Proof. intro H. unfold issued_by. rewrite H. apply skipn_all. Qed.

Lemma SendString_unresolved str method delayMS p :
  forallb resolvable (retained str) = false ->
  let r := SendString str method delayMS p in
  fst r = Thrown
  /\ error_detected (atGlobals (snd r)) = true
  /\ requests (snd r) = requests p
  /\ handler (snd r) = handler p.
Proof.
  intro H. cbv zeta. rewrite SendString_unfold.
  destruct (XOpenDisplay srv) eqn:D.
  - destruct (resolve_abort str [] H) as [msg Hmsg].
    rewrite (DoSendString_aborted _ _ _ _ msg D Hmsg). cbn. auto.
  - rewrite (DoSendString_no_display _ _ _ _ D). cbn. auto.
Qed.

Lemma SendString_no_display str method delayMS p :
  XOpenDisplay srv = false ->
  let r := SendString str method delayMS p in
  fst r = Thrown /\ requests (snd r) = requests p /\ handler (snd r) = handler p.
Proof.
  intro D. cbv zeta. rewrite SendString_unfold, (DoSendString_no_display _ _ _ _ D).
  cbn. auto.
Qed.

Lemma SendString_resolved_handler str method delayMS p :
  XOpenDisplay srv = true ->
  forallb resolvable (retained str) = true ->
  handler (snd (SendString str method delayMS p)) = DefaultHandler.
Proof.
  intros D H. rewrite SendString_unfold.
  rewrite (DoSendString_resolved _ _ _ _ _ D (resolve_all str [] H)).
  cbv beta iota zeta.
  destruct (error_detected (atGlobals _)); reflexivity.
Qed.

(** C1. If a character the filter keeps has no symbolic key, or its symbolic
    key no key code, the call fails and leaves the history of requests as it
    found it: nothing is injected.  Put the other way round, a call that has
    issued any request at all had every kept character resolved before. *)
Theorem resolution_all_or_nothing str method delayMS p c :
  In c str -> c <> VT -> resolvable c = false ->
  let r := SendString str method delayMS p in
  fst r = Thrown
  /\ error_detected (atGlobals (snd r)) = true
  /\ requests (snd r) = requests p
  /\ filter is_key_event (issued_by p (snd r)) = []
  /\ (forall str' method' delayMS' p',
        issued_by p' (snd (SendString str' method' delayMS' p')) <> [] ->
        forallb resolvable (retained str') = true).
Proof.
  intros Hin Hvt Hc. cbv zeta.
  destruct (SendString_unresolved str method delayMS p
              (unresolved_member str c Hin Hvt Hc)) as [H1 [H2 [H3 _]]].
  repeat split; try assumption.
  - rewrite (issued_by_nothing _ _ H3). reflexivity.
  - intros str' method' delayMS' p' Hissued.
    destruct (forallb resolvable (retained str')) eqn:E; [reflexivity|].
    exfalso. apply Hissued, issued_by_nothing.
    apply (SendString_unresolved str' method' delayMS' p' E).
Qed.

(** C8. The vertical tabs of the input are dropped before anything else
    looks at a character: a call on a string and the call on the string
    with its vertical tabs deleted end in the same outcome and the same
    process state, the same requests in the same order included.  The input
    "ab\vcd" is "abcd" to the engine. *)
Theorem vertical_tab_is_deleted str method delayMS p :
  SendString str method delayMS p = SendString (retained str) method delayMS p
  /\ ~ In VT (retained str)
  /\ SendString [0x61; 0x62; VT; 0x63; 0x64] method delayMS p =
     SendString [0x61; 0x62; 0x63; 0x64] method delayMS p.
Proof.
  assert (G : forall s, SendString s method delayMS p =
                        SendString (retained s) method delayMS p).
  { intro s. unfold SendString, DoSendString.
    rewrite (resolve_retained s). reflexivity. }
  split; [apply G|]. split; [|apply (G [0x61; 0x62; VT; 0x63; 0x64])].
  unfold retained. intro H. apply filter_In in H. destruct H as [_ H].
  rewrite Z.eqb_refl in H. discriminate.
Qed.

(** C4, as the code has it.  A call that gets as far as installing its
    handler leaves Xlib's default handler (NULL) registered when it returns,
    whatever was registered before; a call that fails to open the display or
    to resolve a character never touches the registration.  So the
    registration is the one from before the call whenever that was the
    default handler. *)
Theorem handler_after_call str method delayMS p :
  let p' := snd (SendString str method delayMS p) in
  handler p' =
    (if XOpenDisplay srv && forallb resolvable (retained str)
     then DefaultHandler else handler p)
  /\ (handler p = DefaultHandler -> handler p' = handler p).
Proof.
  cbv zeta.
  assert (G : handler (snd (SendString str method delayMS p)) =
              if XOpenDisplay srv && forallb resolvable (retained str)
              then DefaultHandler else handler p).
  { destruct (XOpenDisplay srv) eqn:D; cbn [andb].
    - destruct (forallb resolvable (retained str)) eqn:E.
      + apply SendString_resolved_handler; assumption.
      + apply (SendString_unresolved str method delayMS p E).
    - apply (SendString_no_display str method delayMS p D). }
  split; [exact G|]. intro Hd. rewrite G, Hd.
  destruct (XOpenDisplay srv && forallb resolvable (retained str)); reflexivity.
Qed.


Lemma SendString_process str method delayMS p :
  snd (SendString str method delayMS p) =
  snd (DoSendString str method delayMS (set_globals clean p)).
Proof.
  rewrite SendString_unfold.
  destruct (DoSendString _ _ _ _) as [[|] q]; cbn [snd]; [|reflexivity].
  destruct (error_detected (atGlobals q)); reflexivity.
Qed.

Lemma issued_by_requests p p0 q q0 :
  requests p = requests p0 -> requests q = requests q0 ->
  issued_by p q = issued_by p0 q0.
Proof. unfold issued_by. intros -> ->. reflexivity. Qed.

Lemma SendString_resolved_process str method delayMS p keypresses :
  XOpenDisplay srv = true ->
  resolve str [] = AllResolved keypresses ->
  UseXTest_static_ok p ->
  exists p2,
    snd (SendString str method delayMS p) =
      XSetErrorHandler DefaultHandler
        (injection_phase (XQueryExtension srv "XTEST" && negb (is_XSENDKEYS method))
           delayMS keypresses p2)
    /\ requests p2 = requests p
    /\ atGlobals p2 = clean
    /\ UseXTest_static_ok p2.
Proof.
  intros D R S.
  set (p1 := XSetErrorHandler AutotypeHandler (set_globals clean (set_globals clean p))).
  assert (S1 : UseXTest_static_ok p1) by exact S.
  exists (snd (UseXTest p1)).
  rewrite SendString_process, (DoSendString_resolved _ _ _ _ _ D R).
  cbv zeta. cbn [snd]. fold p1. rewrite (UseXTest_reports p1 S1).
  destruct (UseXTest_keeps p1) as [K1 [K2 _]].
  repeat split; [exact K1|exact K2|apply UseXTest_static_ok_kept, S1].
Qed.

(** C6. Once the display is open and every character resolved, the call
    takes the XTest path exactly when the server reports the XTEST extension
    and the caller has not asked for ATMETHOD_XSENDKEYS: it then opens with
    XTestGrabControl and sends no XSendEvent.  Otherwise it issues no XTest
    request at all, its first request is the XSendEvent key press of the
    first key, and it ends with XSync; this holds for a forced fallback
    whatever the server reports.  Without the extension a call behaves, for
    any method, exactly like the call with the fallback forced.  (The
    answer of the server is kept in the statics of [UseXTest];
    [UseXTest_static_ok] says they hold what this server answers.) *)
Theorem strategy_selection str method delayMS p keypresses :
  XOpenDisplay srv = true ->
  resolve str [] = AllResolved keypresses ->
  UseXTest_static_ok p ->
  let p' := snd (SendString str method delayMS p) in
  let native := XQueryExtension srv "XTEST" && negb (is_XSENDKEYS method) in
  existsb is_XTest_action (issued_by p p') = native
  /\ (native = true ->
      hd_error (issued_by p p') = Some (XTestGrabControl true)
      /\ existsb is_XSendEvent (issued_by p p') = false)
  /\ (native = false ->
      last (issued_by p p') XFlush = XSync false
      /\ forall k rest, keypresses = k :: rest ->
         hd_error (issued_by p p') = Some (first_XSendEvent k))
  /\ (method = ATMETHOD_XSENDKEYS -> native = false)
  /\ (XQueryExtension srv "XTEST" = false ->
      SendString str method delayMS p =
      SendString str ATMETHOD_XSENDKEYS delayMS p)
  /\ UseXTest_static_ok p'.
Proof.
  intros D R S. cbv zeta.
  destruct (SendString_resolved_process str method delayMS p keypresses D R S)
    as [p2 [Hp' [Hreq [Hg S2]]]].
  rewrite Hp'.
  set (native := XQueryExtension srv "XTEST" && negb (is_XSENDKEYS method)).
  set (q := injection_phase native delayMS keypresses p2).
  assert (I : issued_by p (XSetErrorHandler DefaultHandler q) = issued_by p2 q)
    by (apply issued_by_requests; [symmetry; exact Hreq|reflexivity]).
  rewrite I.
  assert (N : native = true ->
              hd_error (issued_by p2 q) = Some (XTestGrabControl true)
              /\ existsb is_XSendEvent (issued_by p2 q) = false).
  { intro Hn. subst q. rewrite Hn.
    destruct (injection_phase_native delayMS keypresses p2) as [A Hhd].
    split; [exact Hhd|].
    apply forallb_negb_existsb. apply (issued_by_appends _ _ _ A). }
  assert (F : native = false ->
              existsb is_XTest_action (issued_by p2 q) = false
              /\ last (issued_by p2 q) XFlush = XSync false
              /\ forall k rest, keypresses = k :: rest ->
                 hd_error (issued_by p2 q) = Some (first_XSendEvent k)).
  { intro Hn. subst q. rewrite Hn.
    destruct (injection_phase_fallback delayMS keypresses p2) as [A [Hl Hhd]].
    split; [|split; [exact Hl|]].
    - apply forallb_negb_existsb. apply (issued_by_appends _ _ _ A).
    - apply Hhd. rewrite Hg. reflexivity. }
  split; [|split; [exact N|split; [|split; [|split]]]].
  - destruct native eqn:Hn.
    + destruct (N eq_refl) as [Hhd _].
      destruct (issued_by p2 q) as [|a l]; [discriminate|].
      injection Hhd as ->. reflexivity.
    + apply (F eq_refl).
  - intro Hn. destruct (F Hn) as [_ [Hl Hhd]]. split; assumption.
  - intros ->. subst native. apply andb_false_r.
  - intro X. rewrite !SendString_unfold.
    rewrite (DoSendString_resolved _ method _ _ _ D R).
    rewrite (DoSendString_resolved _ ATMETHOD_XSENDKEYS _ _ _ D R).
    cbv zeta.
    rewrite (UseXTest_reports
               (XSetErrorHandler AutotypeHandler
                  (set_globals clean (set_globals clean p))) S), X.
    reflexivity.
  - destruct native.
    + exact (appends_static_ok _ _ _
               (proj1 (injection_phase_native delayMS keypresses p2)) S2).
    + exact (appends_static_ok _ _ _
               (proj1 (injection_phase_fallback delayMS keypresses p2)) S2).
Qed.


(** *** The modifier resolver *)

Lemma std_find_range symlist sym count first :
  (first <= std_find symlist first count sym <= first + count)%nat.
Proof.
  revert first. induction count as [|c IH]; intro first; cbn [std_find]; [lia|].
  destruct (nth first symlist NoSymbol =? sym); [lia|].
  specialize (IH (S first)). lia.
Qed.

Lemma std_find_skips symlist sym count first j :
  (first <= j < std_find symlist first count sym)%nat ->
  nth j symlist NoSymbol <> sym.
Proof.
  revert first. induction count as [|c IH]; intros first H; cbn [std_find] in H;
    [lia|].
  destruct (Z.eqb_spec (nth first symlist NoSymbol) sym) as [E|E]; [lia|].
  destruct (Nat.eq_dec j first) as [->|Hne]; [exact E|].
  apply (IH (S first)). lia.
Qed.

Lemma std_find_hit symlist sym count first :
  (std_find symlist first count sym < first + count)%nat ->
  nth (std_find symlist first count sym) symlist NoSymbol = sym.
Proof.
  revert first. induction count as [|c IH]; intros first H; cbn [std_find] in *;
    [lia|].
  destruct (Z.eqb_spec (nth first symlist NoSymbol) sym) as [E|E]; [exact E|].
  apply IH. lia.
Qed.

Lemma std_find_least symlist sym count first i :
  (first <= i < first + count)%nat ->
  nth i symlist NoSymbol = sym ->
  (forall j, (first <= j < i)%nat -> nth j symlist NoSymbol <> sym) ->
  std_find symlist first count sym = i.
Proof.
  intros Hi Hsym Hbefore.
  pose proof (std_find_range symlist sym count first) as Hr.
  destruct (Nat.lt_trichotomy (std_find symlist first count sym) i) as [L|[E|G]].
  - exfalso. apply (Hbefore (std_find symlist first count sym)); [lia|].
    apply std_find_hit. lia.
  - exact E.
  - exfalso. apply (std_find_skips symlist sym count first i); [lia|exact Hsym].
Qed.

Lemma std_find_checked_ok symlist sym count first :
  (first + count <= List.length symlist)%nat ->
  std_find_checked symlist first count sym =
  Some (std_find symlist first count sym).
Proof.
  revert first. induction count as [|c IH]; intros first H;
    cbn [std_find std_find_checked]; [reflexivity|].
  destruct (nth_error symlist first) as [s|] eqn:E.
  - rewrite (nth_error_nth _ _ NoSymbol E).
    destruct (s =? sym); [reflexivity|]. apply IH. lia.
  - apply nth_error_None in E. lia.
Qed.

Lemma FindModifierMask_loop_range modmap sym fuel i modmask :
  Mod1MapIndex * max_keypermod modmap <= i ->
  modmask = 0 \/ 3 <= modmask <= 7 ->
  let r := FindModifierMask_loop modmap sym fuel i modmask in
  r = 0 \/ 3 <= r <= 7.
Proof.
  cbv zeta. unfold Mod1MapIndex.
  revert i modmask. induction fuel as [|f IH]; intros i modmask Hi Hm;
    cbn [FindModifierMask_loop]; [exact Hm|].
  destruct (Z.ltb_spec i (8 * max_keypermod modmap)) as [Hlt|]; cbn [andb];
    [|exact Hm].
  destruct (modmask =? 0); [|exact Hm].
  destruct (nth (Z.to_nat i) (modifiermap modmap) 0 =? 0); [apply IH; [lia|exact Hm]|].
  destruct (XGetKeyboardMapping srv _) as [[symlist n]|]; [|apply IH; [lia|exact Hm]].
  apply IH; [lia|].
  destruct (symlist_has symlist 0 (Z.to_nat n) sym); [|exact Hm].
  right. assert (0 < max_keypermod modmap) by lia.
  split.
  - apply Z.quot_le_lower_bound; lia.
  - apply Z.lt_succ_r. apply Z.quot_lt_upper_bound; lia.
Qed.

Lemma FindModifierMask_range sym :
  In (FindModifierMask sym) [0; 3; 4; 5; 6; 7].
Proof.
  assert (H : FindModifierMask sym = 0 \/ 3 <= FindModifierMask sym <= 7).
  { unfold FindModifierMask. destruct (XGetModifierMapping srv) as [modmap|].
    - apply FindModifierMask_loop_range; [lia|left; reflexivity].
    - left. reflexivity. }
  cbn [In]. lia.
Qed.


Lemma candidate_masks_shape :
  (exists extra,
     candidate_masks = 0 :: ShiftMask :: extra /\ Forall (fun m => 8 <= m) extra)
  /\ NoDup candidate_masks
  /\ In (List.length candidate_masks) [2; 4; 8]%nat.
Proof.
  unfold candidate_masks. cbn [fold_left]. unfold add_extra_masks.
  pose proof (FindModifierMask_range XK_Mode_switch) as Ha.
  pose proof (FindModifierMask_range XK_ISO_Level3_Shift) as Hb.
  revert Ha Hb.
  generalize (FindModifierMask XK_Mode_switch) as a.
  generalize (FindModifierMask XK_ISO_Level3_Shift) as b.
  intros b a Ha Hb. cbn [In] in Ha, Hb.
  repeat (destruct Ha as [Ha|Ha]; [subst a|]); try contradiction;
  repeat (destruct Hb as [Hb|Hb]; [subst b|]); try contradiction;
  cbn; unfold ShiftMask;
  (split; [eexists; split; [reflexivity|repeat constructor; lia]|];
   split; [repeat (constructor; [cbn; lia|]); constructor|tauto]).
Qed.


Lemma add_extra_masks_only_if masks s :
  add_extra_masks masks s <> masks ->
  FindModifierMask s <> 0
  /\ ~ In (Z.shiftl 1 (FindModifierMask s)) masks
  /\ add_extra_masks masks s =
     masks ++ map (fun m => Z.lor m (Z.shiftl 1 (FindModifierMask s))) masks.
Proof.
  unfold add_extra_masks. intro H.
  destruct (Z.eqb_spec (FindModifierMask s) 0) as [E|E]; cbn [negb andb] in *;
    [contradiction|].
  destruct (existsb (Z.eqb (Z.shiftl 1 (FindModifierMask s))) masks) eqn:X;
    cbn [negb] in *; [contradiction|].
  split; [exact E|split].
  - intro Hin. assert (existsb (Z.eqb (Z.shiftl 1 (FindModifierMask s))) masks = true).
    { apply existsb_exists. eexists. split; [exact Hin|apply Z.eqb_refl]. }
    congruence.
  - reflexivity.
Qed.

Lemma CalcModifiersForKeysym_match code sym symlist keysyms_per_keycode i :
  XGetKeyboardMapping srv code = Some (symlist, keysyms_per_keycode) ->
  0 < keysyms_per_keycode ->
  (i < Nat.min (List.length candidate_masks) (Z.to_nat keysyms_per_keycode))%nat ->
  nth i symlist NoSymbol = sym ->
  (forall j, (j < i)%nat -> nth j symlist NoSymbol <> sym) ->
  CalcModifiersForKeysym code sym = nth i candidate_masks 0.
Proof.
  intros Hmap Hpos Hi Hsym Hleast. unfold CalcModifiersForKeysym.
  rewrite Hmap. destruct (Z.ltb_spec 0 keysyms_per_keycode); [|lia].
  cbv zeta. rewrite (std_find_least symlist sym _ 0%nat i); try lia; try assumption.
  - destruct (Nat.eqb_spec i
                (Nat.min (List.length candidate_masks) (Z.to_nat keysyms_per_keycode)));
      [lia|reflexivity].
  - intros j Hj. apply Hleast. lia.
Qed.

(** C5. The candidate list opens with "no modifier" and then shift; a round
    for an extra-shift key adds to it only if [FindModifierMask] found the
    key (nonzero) and its mask is not yet in the list, and what it adds goes
    behind the candidates already there; the candidates are pairwise
    distinct and every one after the first two carries a bit from Mod1 up.
    For a key code, the answer is the candidate at the smallest index at
    which the key's symbol list has the target: 0 if the target is its
    first symbol, shift if it is the second and not the first, and a
    combination with an extra shift only from the third on. *)
Theorem modifier_search_prefers_narrowest code sym symlist keysyms_per_keycode i :
  XGetKeyboardMapping srv code = Some (symlist, keysyms_per_keycode) ->
  0 < keysyms_per_keycode ->
  (i < Nat.min (List.length candidate_masks) (Z.to_nat keysyms_per_keycode))%nat ->
  nth i symlist NoSymbol = sym ->
  (forall j, (j < i)%nat -> nth j symlist NoSymbol <> sym) ->
  CalcModifiersForKeysym code sym = nth i candidate_masks 0
  /\ (i = 0%nat -> CalcModifiersForKeysym code sym = 0)
  /\ (i = 1%nat -> CalcModifiersForKeysym code sym = ShiftMask)
  /\ ((2 <= i)%nat -> 8 <= CalcModifiersForKeysym code sym)
  /\ (exists extra,
        candidate_masks = 0 :: ShiftMask :: extra
        /\ Forall (fun m => 8 <= m) extra)
  /\ NoDup candidate_masks
  /\ (forall masks s,
        add_extra_masks masks s <> masks ->
        FindModifierMask s <> 0
        /\ ~ In (Z.shiftl 1 (FindModifierMask s)) masks
        /\ add_extra_masks masks s =
           masks ++ map (fun m => Z.lor m (Z.shiftl 1 (FindModifierMask s))) masks).
Proof.
  intros Hmap Hpos Hi Hsym Hleast.
  pose proof (CalcModifiersForKeysym_match _ _ _ _ _ Hmap Hpos Hi Hsym Hleast) as R.
  destruct candidate_masks_shape as [[extra [Hshape Hextra]] [Hnodup _]].
  rewrite R.
  split; [reflexivity|].
  split; [intros ->; rewrite Hshape; reflexivity|].
  split; [intros ->; rewrite Hshape; reflexivity|].
  split.
  { intro H2. rewrite Hshape in Hi |- *.
    destruct i as [|[|i']]; try lia. cbn [nth].
    rewrite Forall_forall in Hextra. apply Hextra, nth_In.
    cbn [List.length] in Hi. lia. }
  split; [exists extra; split; assumption|].
  split; [exact Hnodup|]. apply add_extra_masks_only_if.
Qed.

(** C7. If the key's symbol list has the target at none of the indices the
    search looks at, or the server hands out no symbol list at all, the
    resolver answers 0 ("no modifiers"); the character is then typed with
    that state and resolution goes on with the next character. *)
Theorem modifier_default_is_none code sym :
  (forall symlist keysyms_per_keycode,
     XGetKeyboardMapping srv code = Some (symlist, keysyms_per_keycode) ->
     forall i,
       (i < Nat.min (List.length candidate_masks) (Z.to_nat keysyms_per_keycode))%nat ->
       nth i symlist NoSymbol <> sym) ->
  CalcModifiersForKeysym code sym = 0
  /\ (forall c rest keypresses,
        c <> VT -> wchar2keysym c = sym -> sym <> NoSymbol ->
        XKeysymToKeycode srv sym = code -> code <> 0 ->
        resolve (c :: rest) keypresses =
        resolve rest (keypresses ++ [{| code := code; state := 0 |}])).
Proof.
  intro Hnone.
  assert (R : CalcModifiersForKeysym code sym = 0).
  { unfold CalcModifiersForKeysym.
    destruct (XGetKeyboardMapping srv code) as [[symlist n]|] eqn:Hmap;
      [|reflexivity].
    destruct (0 <? n); [|reflexivity]. cbv zeta.
    set (mx := Nat.min (List.length candidate_masks) (Z.to_nat n)).
    pose proof (std_find_range symlist sym mx 0) as Hr.
    destruct (Nat.eqb_spec (std_find symlist 0 mx sym) mx) as [E|E];
      [reflexivity|].
    exfalso. apply (Hnone symlist n eq_refl (std_find symlist 0 mx sym)).
    - fold mx. lia.
    - apply std_find_hit. lia. }
  split; [exact R|].
  intros c rest ks Hvt Hsym Hno Hkc Hcode.
  rewrite resolve_cons. destruct (Z.eqb_spec c VT); [contradiction|].
  unfold resolvable, keypress_of. rewrite Hsym, Hkc, R.
  destruct (Z.eqb_spec NoSymbol sym); [congruence|].
  destruct (Z.eqb_spec code 0); [contradiction|]. reflexivity.
Qed.

(** C10. Where the symbol list has the [keysyms_per_keycode] entries the
    server reports, [CalcModifiersForKeysym] reads no element outside the
    symbol list or the candidate list: run with every access checked, it
    gives the result of the unchecked code.  The search stops at the smaller
    of the two sizes, and a match sits below both. *)
Theorem mask_lookup_in_bounds code sym :
  mapping_ok code ->
  CalcModifiersForKeysym_checked code sym = Some (CalcModifiersForKeysym code sym)
  /\ (forall symlist keysyms_per_keycode,
        XGetKeyboardMapping srv code = Some (symlist, keysyms_per_keycode) ->
        0 < keysyms_per_keycode ->
        let max_keysym_index :=
          Nat.min (List.length candidate_masks) (Z.to_nat keysyms_per_keycode) in
        let match_index := std_find symlist 0 max_keysym_index sym in
        (match_index <= max_keysym_index)%nat
        /\ (max_keysym_index <= List.length symlist)%nat
        /\ (match_index <> max_keysym_index ->
            (match_index < List.length candidate_masks)%nat
            /\ (match_index < List.length symlist)%nat)).
Proof.
  intro Hok.
  assert (B : forall symlist n,
            XGetKeyboardMapping srv code = Some (symlist, n) -> 0 < n ->
            (Nat.min (List.length candidate_masks) (Z.to_nat n)
             <= List.length symlist)%nat).
  { intros symlist n Hmap Hpos. specialize (Hok symlist n Hmap). lia. }
  split.
  - unfold CalcModifiersForKeysym_checked, CalcModifiersForKeysym.
    destruct (XGetKeyboardMapping srv code) as [[symlist n]|] eqn:Hmap;
      [|reflexivity].
    destruct (Z.ltb_spec 0 n) as [Hpos|]; [|reflexivity]. cbv zeta.
    specialize (B symlist n eq_refl Hpos).
    set (mx := Nat.min (List.length candidate_masks) (Z.to_nat n)) in *.
    rewrite std_find_checked_ok by lia.
    pose proof (std_find_range symlist sym mx 0) as Hr.
    destruct (Nat.eqb_spec (std_find symlist 0 mx sym) mx) as [E|E];
      [reflexivity|]. cbn [negb].
    apply nth_error_nth'. lia.
  - intros symlist n Hmap Hpos. cbv zeta.
    specialize (B symlist n Hmap Hpos).
    set (mx := Nat.min (List.length candidate_masks) (Z.to_nat n)) in *.
    pose proof (std_find_range symlist sym mx 0) as Hr. lia.
Qed.

(** ** Further properties of the code *)

(** *** What a call puts on the wire *)

Lemma issued_by_exact p q l :
  requests q = requests p ++ l -> issued_by p q = l.
Proof.
  intro H. unfold issued_by.
  rewrite H, skipn_app, skipn_all, Nat.sub_diag. reflexivity.
Qed.

Lemma issue_keeps_flag a p :
  error_detected (atGlobals p) = true ->
  error_detected (atGlobals (issue a p)) = true.
Proof. intro H. cbn. apply deliver_keeps_flag, H. Qed.

Lemma XSendKeys_SendKeyEvent_sends k e p :
  ev_window e = XGetInputFocus srv ->
  let r := XSendKeys_SendKeyEvent
             (set_state_time (state k) CurrentTime (set_keycode (code k) e)) p in
  ev_window (fst r) = XGetInputFocus srv
  /\ requests (snd r) = requests p ++ XSendKeys_keys k ++ [XFlush].
Proof.
  intro W. unfold XSendKeys_SendKeyEvent, XSendKeys_SendEvent, XSendKeys_keys,
    XSendKeys_event, set_type, set_state_time, set_keycode.
  cbn. rewrite W. split; [reflexivity|].
  repeat rewrite <- app_assoc. reflexivity.
Qed.

Lemma XTest_SendKeyEvent_sends k e p :
  ev_window e = XGetInputFocus srv ->
  let r := XTest_SendKeyEvent
             (set_state_time (state k) CurrentTime (set_keycode (code k) e)) p in
  ev_window (fst r) = XGetInputFocus srv
  /\ requests (snd r) = requests p ++ XTest_keys k ++ [XFlush].
Proof.
  intro W. unfold XTest_SendKeyEvent, XTest_keys, XTest_SendEvent. cbn.
  split; [exact W|].
  destruct (Z.land (state k) ShiftMask =? 0); cbn;
    repeat rewrite <- app_assoc; reflexivity.
Qed.

Lemma inject_prefix send keys delayMS :
  (forall k e p,
     ev_window e = XGetInputFocus srv ->
     ev_window
       (fst (send (set_state_time (state k) CurrentTime (set_keycode (code k) e)) p))
     = XGetInputFocus srv
     /\ requests
          (snd (send (set_state_time (state k) CurrentTime (set_keycode (code k) e)) p))
        = requests p ++ keys k ++ [XFlush]) ->
  forall keypresses e p,
    ev_window e = XGetInputFocus srv ->
    exists n,
      (n <= List.length keypresses)%nat
      /\ requests (snd (inject send delayMS keypresses e p)) =
         requests p
         ++ flat_map (fun k => keys k ++ [XFlush; sleep_ms delayMS])
              (firstn n keypresses)
      /\ ((n < List.length keypresses)%nat ->
          error_detected (atGlobals (snd (inject send delayMS keypresses e p)))
          = true).
Proof.
  intro Hsend. induction keypresses as [|k rest IH]; intros e p W; cbn [inject].
  - exists 0%nat. cbn. rewrite app_nil_r.
    split; [lia|]. split; [reflexivity|lia].
  - destruct (error_detected (atGlobals p)) eqn:F.
    + exists 0%nat. cbn. rewrite app_nil_r.
      split; [lia|]. split; [reflexivity|intros _; exact F].
    + destruct (Hsend k e p W) as [W' R].
      destruct (send _ p) as [e' p']. cbn [fst snd] in W', R.
      destruct (IH e' (pws_os_sleep_ms delayMS p') W') as [n [Hn [Hr Hf]]].
      exists (S n). cbn [List.length firstn flat_map].
      split; [lia|]. split.
      * rewrite Hr. cbn [requests pws_os_sleep_ms]. rewrite R.
        repeat rewrite <- app_assoc. reflexivity.
      * intro Hlt. apply Hf. lia.
Qed.

Lemma injection_phase_trace useXTEST delayMS keypresses p :
  exists n,
    (n <= List.length keypresses)%nat
    /\ requests (injection_phase useXTEST delayMS keypresses p) =
       requests p ++ call_trace useXTEST delayMS (firstn n keypresses)
    /\ ((n < List.length keypresses)%nat ->
        error_detected (atGlobals (injection_phase useXTEST delayMS keypresses p))
        = true).
Proof.
  unfold injection_phase, call_trace, key_block. destruct useXTEST.
  - destruct (inject_prefix XTest_SendKeyEvent XTest_keys delayMS
                XTest_SendKeyEvent_sends keypresses AutotypeEvent
                (issue (XTestGrabControl true) p) eq_refl) as [n [Hn [Hr Hf]]].
    exists n. split; [exact Hn|]. split.
    + cbn [issue requests]. rewrite Hr. cbn [issue requests].
      repeat rewrite <- app_assoc. reflexivity.
    + intro Hlt. apply issue_keeps_flag, Hf, Hlt.
  - destruct (inject_prefix XSendKeys_SendKeyEvent XSendKeys_keys delayMS
                XSendKeys_SendKeyEvent_sends keypresses AutotypeEvent
                p eq_refl) as [n [Hn [Hr Hf]]].
    exists n. split; [exact Hn|]. split.
    + cbn [issue requests]. rewrite Hr.
      repeat rewrite <- app_assoc. reflexivity.
    + intro Hlt. apply issue_keeps_flag, Hf, Hlt.
Qed.

Lemma SendString_resolved_general str method delayMS p :
  XOpenDisplay srv = true ->
  forallb resolvable (retained str) = true ->
  exists p2,
    let q := injection_phase
               (reported_XTEST p && negb (is_XSENDKEYS method)) delayMS
               (map keypress_of (retained str)) p2 in
    SendString str method delayMS p =
      (if error_detected (atGlobals q) then Thrown else Returned,
       XSetErrorHandler DefaultHandler q)
    /\ requests p2 = requests p
    /\ atGlobals p2 = clean
    /\ checked p2 = true
    /\ useXTest p2 = reported_XTEST p
    /\ handler p2 = AutotypeHandler.
Proof.
  intros D R.
  set (p1 := XSetErrorHandler AutotypeHandler (set_globals clean (set_globals clean p))).
  exists (snd (UseXTest p1)). cbv zeta.
  rewrite SendString_unfold,
    (DoSendString_resolved _ _ _ _ _ D (resolve_all str [] R)).
  cbv zeta. fold p1.
  assert (E : fst (UseXTest p1) = reported_XTEST p)
    by (unfold UseXTest, reported_XTEST, p1; cbn; destruct (checked p); reflexivity).
  rewrite E. cbn [app].
  split.
  - change (atGlobals (XSetErrorHandler DefaultHandler ?q)) with (atGlobals q).
    destruct (error_detected (atGlobals _)); reflexivity.
  - unfold UseXTest, reported_XTEST, p1. cbn.
    destruct (checked p) eqn:C; cbn; rewrite ?C; repeat split; reflexivity.
Qed.

Lemma SendString_resolved_trace str method delayMS p :
  XOpenDisplay srv = true ->
  forallb resolvable (retained str) = true ->
  let r := SendString str method delayMS p in
  let keypresses := map keypress_of (retained str) in
  let useXTEST := reported_XTEST p && negb (is_XSENDKEYS method) in
  exists n,
    (n <= List.length keypresses)%nat
    /\ issued_by p (snd r) = call_trace useXTEST delayMS (firstn n keypresses)
    /\ ((n < List.length keypresses)%nat ->
        error_detected (atGlobals (snd r)) = true).
Proof.
  intros D R. cbv zeta.
  destruct (SendString_resolved_general str method delayMS p D R)
    as [p2 [E [Hreq _]]]. cbv zeta in E. rewrite E. cbn [fst snd].
  destruct (injection_phase_trace
              (reported_XTEST p && negb (is_XSENDKEYS method)) delayMS
              (map keypress_of (retained str)) p2) as [n [Hn [Hr Hf]]].
  exists n. split; [exact Hn|]. split; [|exact Hf].
  apply issued_by_exact. cbn [XSetErrorHandler requests].
  rewrite Hr, Hreq. reflexivity.
Qed.

(** X1. Once the display is open and every kept character resolves, what a
    call issues is the trace of a prefix of the key presses, in the order of
    the kept characters: the grab (XTest) or nothing, then for each key sent
    its events, XFlush and the pacing sleep, then the closing
    XTestGrabControl or XSync.  A call that returns normally has sent every
    key press; one that stopped early throws. *)
Theorem SendString_types_a_prefix str method delayMS p :
  XOpenDisplay srv = true ->
  forallb resolvable (retained str) = true ->
  let r := SendString str method delayMS p in
  let keypresses := map keypress_of (retained str) in
  let useXTEST := reported_XTEST p && negb (is_XSENDKEYS method) in
  exists n,
    (n <= List.length keypresses)%nat
    /\ issued_by p (snd r) = call_trace useXTEST delayMS (firstn n keypresses)
    /\ ((n < List.length keypresses)%nat -> fst r = Thrown)
    /\ (fst r = Returned ->
        issued_by p (snd r) = call_trace useXTEST delayMS keypresses).
Proof.
  intros D R. cbv zeta.
  destruct (SendString_resolved_trace str method delayMS p D R)
    as [n [Hn [I Hf]]]. cbv zeta in I, Hf.
  assert (T : error_detected (atGlobals (snd (SendString str method delayMS p)))
              = true ->
              fst (SendString str method delayMS p) = Thrown).
  { destruct (SendString_resolved_general str method delayMS p D R)
      as [p2 [E _]]. cbv zeta in E. rewrite E. cbn [fst snd].
    cbn [XSetErrorHandler atGlobals]. intros ->. reflexivity. }
  exists n. split; [exact Hn|]. split; [exact I|]. split.
  - intro Hlt. apply T, Hf, Hlt.
  - intro Hret. rewrite I.
    destruct (Nat.eq_dec n (List.length (map keypress_of (retained str))))
      as [->|Hne].
    + rewrite firstn_all. reflexivity.
    + rewrite T in Hret by (apply Hf; lia). discriminate.
Qed.

Lemma issue_quiet a p :
  (forall history, XErrors srv history = []) ->
  atGlobals (issue a p) = atGlobals p.
Proof.
  intro Q. cbn. rewrite Q. destruct (handler p); reflexivity.
Qed.

Lemma XSendKeys_SendKeyEvent_quiet e p :
  (forall history, XErrors srv history = []) ->
  atGlobals (snd (XSendKeys_SendKeyEvent e p)) = atGlobals p.
Proof.
  intro Q. unfold XSendKeys_SendKeyEvent, XSendKeys_SendEvent. cbn [snd].
  rewrite !(issue_quiet _ _ Q). reflexivity.
Qed.

Lemma XTest_SendKeyEvent_quiet e p :
  (forall history, XErrors srv history = []) ->
  atGlobals (snd (XTest_SendKeyEvent e p)) = atGlobals p.
Proof.
  intro Q. unfold XTest_SendKeyEvent, XTest_SendEvent. cbn [snd].
  destruct (negb (Z.land (ev_state e) ShiftMask =? 0));
    rewrite !(issue_quiet _ _ Q); reflexivity.
Qed.

Lemma inject_quiet send delayMS keypresses :
  (forall e p, atGlobals (snd (send e p)) = atGlobals p) ->
  forall e p,
    atGlobals (snd (inject send delayMS keypresses e p)) = atGlobals p.
Proof.
  intro Hsend. induction keypresses as [|k rest IH]; intros e p; cbn [inject];
    [reflexivity|].
  destruct (error_detected (atGlobals p)); [reflexivity|].
  specialize (Hsend (set_state_time (state k) CurrentTime (set_keycode (code k) e)) p).
  destruct (send _ p) as [e' p']. cbn [snd] in Hsend.
  rewrite IH. exact Hsend.
Qed.

Lemma injection_phase_quiet useXTEST delayMS keypresses p :
  (forall history, XErrors srv history = []) ->
  atGlobals (injection_phase useXTEST delayMS keypresses p) = atGlobals p.
Proof.
  intro Q. unfold injection_phase. destruct useXTEST.
  - rewrite (issue_quiet _ _ Q),
      (inject_quiet _ _ _ (fun e p => XTest_SendKeyEvent_quiet e p Q)).
    apply (issue_quiet _ _ Q).
  - rewrite (issue_quiet _ _ Q).
    apply (inject_quiet _ _ _ (fun e p => XSendKeys_SendKeyEvent_quiet e p Q)).
Qed.

(** X2. On a server that reports no protocol error, a call with the display
    open and every kept character resolvable returns normally, leaves the
    error flag clear and the error text empty, and has issued the complete
    trace: one block of key events, XFlush and sleep per kept character, in
    input order. *)
Theorem SendString_succeeds_without_errors str method delayMS p :
  (forall history, XErrors srv history = []) ->
  XOpenDisplay srv = true ->
  forallb resolvable (retained str) = true ->
  let r := SendString str method delayMS p in
  fst r = Returned
  /\ atGlobals (snd r) = clean
  /\ issued_by p (snd r) =
     call_trace (reported_XTEST p && negb (is_XSENDKEYS method)) delayMS
       (map keypress_of (retained str))
  /\ List.length (filter (fun a => match a with sleep_ms _ => true | _ => false end)
                    (issued_by p (snd r)))
     = List.length (retained str).
Proof.
  intros Q D R. cbv zeta.
  destruct (SendString_resolved_trace str method delayMS p D R)
    as [n [Hn [I Hf]]]. cbv zeta in I, Hf.
  destruct (SendString_resolved_general str method delayMS p D R)
    as [p2 [E [_ [Hg _]]]]. cbv zeta in E.
  rewrite E in *. cbn [fst snd] in *.
  cbn [XSetErrorHandler atGlobals] in *.
  rewrite (injection_phase_quiet _ _ _ _ Q), Hg in *.
  cbn [clean error_detected] in *.
  assert (Hfull : issued_by p
                    (XSetErrorHandler DefaultHandler
                       (injection_phase
                          (reported_XTEST p && negb (is_XSENDKEYS method)) delayMS
                          (map keypress_of (retained str)) p2)) =
                  call_trace (reported_XTEST p && negb (is_XSENDKEYS method))
                    delayMS (map keypress_of (retained str))).
  { rewrite I.
    destruct (Nat.eq_dec n (List.length (map keypress_of (retained str))))
      as [->|Hne]; [rewrite firstn_all; reflexivity|].
    assert (false = true) by (apply Hf; lia). discriminate. }
  split; [reflexivity|]. split; [reflexivity|].
  split; [exact Hfull|].
  rewrite Hfull. unfold call_trace.
  rewrite !filter_app.
  assert (F : forall u ks,
            List.length
              (filter (fun a => match a with sleep_ms _ => true | _ => false end)
                 (flat_map (key_block u delayMS) ks)) = List.length ks).
  { intros u ks. induction ks as [|k ks IH]; [reflexivity|].
    cbn [flat_map]. rewrite filter_app, length_app, IH.
    unfold key_block, XTest_keys, XSendKeys_keys.
    destruct u; [destruct (negb (Z.land (state k) ShiftMask =? 0))|]; reflexivity. }
  rewrite !length_app, F, length_map.
  destruct (reported_XTEST p && negb (is_XSENDKEYS method)); cbn; lia.
Qed.

(** *** No key is left pressed *)

Lemma held_app kc a b : held kc (a ++ b) = held kc a + held kc b.
Proof.
  induction a as [|x a IH]; cbn [held app fold_right]; [reflexivity|].
  fold (held kc (a ++ b)). fold (held kc a). rewrite IH. lia.
Qed.

Lemma held_key_block kc useXTEST delayMS k :
  held kc (key_block useXTEST delayMS k) = 0.
Proof.
  unfold key_block, XTest_keys, XSendKeys_keys, XSendKeys_event.
  destruct useXTEST.
  - destruct (negb (Z.land (state k) ShiftMask =? 0)); cbn;
      destruct (XKeysymToKeycode srv XK_Shift_L =? kc);
      destruct (code k =? kc); reflexivity.
  - cbn. destruct (code k =? kc); reflexivity.
Qed.

Lemma held_call_trace kc useXTEST delayMS keypresses :
  held kc (call_trace useXTEST delayMS keypresses) = 0.
Proof.
  unfold call_trace. rewrite !held_app.
  assert (F : held kc (flat_map (key_block useXTEST delayMS) keypresses) = 0).
  { induction keypresses as [|k ks IH]; [reflexivity|].
    cbn [flat_map]. rewrite held_app, held_key_block, IH. reflexivity. }
  rewrite F. destruct useXTEST; reflexivity.
Qed.

(** X3. Whatever the outcome of a call, protocol errors in the middle of it
    included, every key it has pressed it has also released: for each key
    code, the presses and the releases among the requests of the call are
    equal in number. *)
Theorem no_key_left_pressed str method delayMS p kc :
  held kc (issued_by p (snd (SendString str method delayMS p))) = 0.
Proof.
  destruct (XOpenDisplay srv) eqn:D.
  - destruct (forallb resolvable (retained str)) eqn:R.
    + destruct (SendString_resolved_trace str method delayMS p D R)
        as [n [_ [I _]]]. cbv zeta in I. rewrite I. apply held_call_trace.
    + rewrite (issued_by_nothing p); [reflexivity|].
      apply (SendString_unresolved str method delayMS p R).
  - rewrite (issued_by_nothing p); [reflexivity|].
    apply (SendString_no_display str method delayMS p D).
Qed.

(** *** The error state a call leaves behind *)

Lemma substring_length (n : nat) (s : string) :
  (String.length (substring 0 n s) <= n)%nat.
Proof.
  revert s. induction n as [|n IH]; intros [|c s]; cbn; try lia.
  specialize (IH s). lia.
Qed.

Lemma snprintf_fits (size : nat) (s : string) :
  (1 <= size)%nat -> (String.length (snprintf size s) < size)%nat.
Proof.
  intro H. unfold snprintf. pose proof (substring_length (size - 1) s). lia.
Qed.

Lemma snprintf_nonempty (size : nat) (c : ascii) (s : string) :
  (2 <= size)%nat -> snprintf size (String c s) <> ""%string.
Proof.
  intro H. unfold snprintf. destruct size as [|[|n]]; try lia.
  cbn. discriminate.
Qed.

Lemma clean_ok : globals_ok clean.
Proof.
  unfold globals_ok, clean, NumberOf_errorString. cbn.
  split; [reflexivity|]. split; [discriminate|lia].
Qed.

Lemma ErrorHandler_ok g e : globals_ok (ErrorHandler srv g e).
Proof.
  unfold globals_ok, ErrorHandler. cbn [error_detected errorString].
  split; [discriminate|]. split.
  - intros _. cbn [append]. apply snprintf_nonempty.
    unfold NumberOf_errorString. lia.
  - pose proof (snprintf_fits (NumberOf_errorString - 1)
                  ("X error (" ++ fmt_d (request_code e) ++ "): "
                   ++ XGetErrorText srv (error_code e) (NumberOf_xmsg - 1))) as H.
    unfold NumberOf_errorString in *. lia.
Qed.

Lemma deliver_ok h g es : globals_ok g -> globals_ok (deliver srv h g es).
Proof.
  destruct h; cbn [deliver]; auto.
  revert g. induction es as [|e es IH]; intros g Hg; cbn [fold_left];
    [exact Hg|].
  apply IH, ErrorHandler_ok.
Qed.

Lemma issue_ok a p :
  globals_ok (atGlobals p) -> globals_ok (atGlobals (issue a p)).
Proof. intro H. cbn. apply deliver_ok, H. Qed.

Lemma XSendKeys_SendKeyEvent_ok e p :
  globals_ok (atGlobals p) ->
  globals_ok (atGlobals (snd (XSendKeys_SendKeyEvent e p))).
Proof.
  intro H. unfold XSendKeys_SendKeyEvent, XSendKeys_SendEvent. cbn [snd].
  repeat apply issue_ok. exact H.
Qed.

Lemma XTest_SendKeyEvent_ok e p :
  globals_ok (atGlobals p) ->
  globals_ok (atGlobals (snd (XTest_SendKeyEvent e p))).
Proof.
  intro H. unfold XTest_SendKeyEvent, XTest_SendEvent. cbn [snd].
  destruct (negb (Z.land (ev_state e) ShiftMask =? 0));
    repeat apply issue_ok; exact H.
Qed.

Lemma inject_ok send delayMS keypresses :
  (forall e p, globals_ok (atGlobals p) -> globals_ok (atGlobals (snd (send e p)))) ->
  forall e p,
    globals_ok (atGlobals p) ->
    globals_ok (atGlobals (snd (inject send delayMS keypresses e p))).
Proof.
  intro Hsend. induction keypresses as [|k rest IH]; intros e p H; cbn [inject];
    [exact H|].
  destruct (error_detected (atGlobals p)); [exact H|].
  specialize (Hsend (set_state_time (state k) CurrentTime (set_keycode (code k) e))
                p H).
  destruct (send _ p) as [e' p']. cbn [snd] in Hsend.
  apply IH. exact Hsend.
Qed.

Lemma injection_phase_ok useXTEST delayMS keypresses p :
  globals_ok (atGlobals p) ->
  globals_ok (atGlobals (injection_phase useXTEST delayMS keypresses p)).
Proof.
  intro H. unfold injection_phase. destruct useXTEST; apply issue_ok.
  - apply (inject_ok _ _ _ XTest_SendKeyEvent_ok). apply issue_ok, H.
  - apply (inject_ok _ _ _ XSendKeys_SendKeyEvent_ok), H.
Qed.

Lemma abort_message_ok c :
  globals_ok {| error_detected := true; errorString := abort_message c |}.
Proof.
  unfold globals_ok. cbn [error_detected errorString].
  split; [discriminate|].
  unfold abort_message, keysym_message, keycode_message.
  destruct (NoSymbol =? wchar2keysym c); cbn [append]; split;
    try (intros _; apply snprintf_nonempty; unfold NumberOf_errorString; lia);
    apply snprintf_fits; unfold NumberOf_errorString; lia.
Qed.

Lemma resolve_abort_message (str : list Z) (keypresses : list KeyPressInfo) msg :
  resolve str keypresses = Aborted msg ->
  exists front c back,
    retained str = front ++ c :: back
    /\ forallb resolvable front = true
    /\ resolvable c = false
    /\ msg = abort_message c.
Proof.
  revert keypresses. induction str as [|c rest IH]; intros ks H.
  - discriminate.
  - rewrite resolve_cons in H. rewrite retained_cons.
    destruct (c =? VT); [apply (IH _ H)|].
    destruct (resolvable c) eqn:Rc.
    + destruct (IH _ H) as [front [c' [back [E [F [Rc' M]]]]]].
      exists (c :: front), c', back. rewrite E. cbn [forallb]. rewrite Rc, F.
      repeat split; assumption.
    + exists [], c, (retained rest). injection H as <-.
      repeat split; assumption || reflexivity.
Qed.

Lemma SendString_globals str method delayMS p :
  let r := SendString str method delayMS p in
  globals_ok (atGlobals (snd r))
  /\ (fst r = Returned <-> error_detected (atGlobals (snd r)) = false).
Proof.
  cbv zeta. destruct (XOpenDisplay srv) eqn:D.
  - destruct (forallb resolvable (retained str)) eqn:R.
    + destruct (SendString_resolved_general str method delayMS p D R)
        as [p2 [E [_ [Hg _]]]]. cbv zeta in E. rewrite E. cbn [fst snd].
      cbn [XSetErrorHandler atGlobals]. split.
      * apply injection_phase_ok. rewrite Hg. apply clean_ok.
      * destruct (error_detected (atGlobals _)); split; congruence.
    + destruct (resolve_abort str [] R) as [msg Hmsg].
      destruct (resolve_abort_message _ _ _ Hmsg) as [_ [c [_ [_ [_ [_ ->]]]]]].
      rewrite SendString_unfold, (DoSendString_aborted _ _ _ _ _ D Hmsg).
      cbn. split; [apply abort_message_ok|]. split; discriminate.
  - rewrite SendString_unfold, (DoSendString_no_display _ _ _ _ D). cbn.
    split; [|split; discriminate].
    unfold globals_ok, NumberOf_errorString. cbn.
    split; [discriminate|]. split; [discriminate|lia].
Qed.

(** X4. A call returns normally exactly when it ends with the error flag
    clear, and then the error text is empty; a call that throws leaves the
    flag set and a text that is not empty.  What the globals held before the
    call has no influence on it. *)
Theorem SendString_outcome_and_message str method delayMS p :
  let r := SendString str method delayMS p in
  (fst r = Returned <-> error_detected (atGlobals (snd r)) = false)
  /\ (fst r = Returned -> atGlobals (snd r) = clean)
  /\ (fst r = Thrown ->
      error_detected (atGlobals (snd r)) = true
      /\ errorString (atGlobals (snd r)) <> ""%string)
  /\ (forall g, SendString str method delayMS (set_globals g p) = r).
Proof.
  cbv zeta.
  destruct (SendString_globals str method delayMS p) as [[H0 [H1 _]] Hiff].
  cbv zeta in *.
  split; [exact Hiff|]. split; [|split].
  - intro Hr. apply Hiff in Hr. specialize (H0 Hr).
    destruct (atGlobals (snd (SendString str method delayMS p))) as [f t].
    cbn in *. subst. reflexivity.
  - intro Ht.
    destruct (error_detected (atGlobals (snd (SendString str method delayMS p))))
      eqn:F.
    + split; [reflexivity|exact (H1 eq_refl)].
    + destruct Hiff as [_ Hback]. rewrite (Hback eq_refl) in Ht. discriminate.
  - intro g. reflexivity.
Qed.

(** X5. The error text a call leaves behind always fits its buffer of 1024
    characters with the terminating NUL, whatever the texts XGetErrorText,
    XKeysymToString and wcrtomb hand back. *)
Theorem errorString_fits_buffer str method delayMS p :
  (String.length (errorString (atGlobals (snd (SendString str method delayMS p))))
   < NumberOf_errorString)%nat.
Proof.
  apply (SendString_globals str method delayMS p).
Qed.

(** X6. When resolution fails, the message is the one for the first kept
    character that has no symbolic key or no key code: every kept character
    before it resolves, and the characters after it are not looked at. *)
Theorem resolution_reports_first_failure str method delayMS p :
  XOpenDisplay srv = true ->
  forallb resolvable (retained str) = false ->
  exists front c back,
    retained str = front ++ c :: back
    /\ forallb resolvable front = true
    /\ resolvable c = false
    /\ errorString (atGlobals (snd (SendString str method delayMS p)))
       = abort_message c.
Proof.
  intros D R.
  destruct (resolve_abort str [] R) as [msg Hmsg].
  destruct (resolve_abort_message _ _ _ Hmsg) as [front [c [back [E [F [Rc M]]]]]].
  exists front, c, back. repeat split; try assumption.
  rewrite SendString_unfold, (DoSendString_aborted _ _ _ _ _ D Hmsg). cbn.
  exact M.
Qed.

(** *** The modifier map search *)

Lemma FindModifierMask_loop_stops modmap sym fuel i modmask :
  modmask <> 0 -> FindModifierMask_loop modmap sym fuel i modmask = modmask.
Proof.
  intro H. destruct fuel; cbn [FindModifierMask_loop]; [reflexivity|].
  destruct (Z.eqb_spec modmask 0); [contradiction|].
  rewrite andb_false_r. reflexivity.
Qed.

Lemma FindModifierMask_loop_first modmap sym fuel i :
  Mod1MapIndex * max_keypermod modmap <= i ->
  fuel = Z.to_nat (8 * max_keypermod modmap - i) ->
  ((forall j, i <= j < 8 * max_keypermod modmap -> slot_has modmap sym j = false)
   /\ FindModifierMask_loop modmap sym fuel i 0 = 0)
  \/ (exists j0,
        i <= j0 < 8 * max_keypermod modmap
        /\ slot_has modmap sym j0 = true
        /\ (forall j, i <= j < j0 -> slot_has modmap sym j = false)
        /\ FindModifierMask_loop modmap sym fuel i 0
           = Z.quot j0 (max_keypermod modmap)).
Proof.
  unfold Mod1MapIndex. revert i.
  induction fuel as [|f IH]; intros i Hi Hfuel.
  - left. split; [intros j Hj; lia|reflexivity].
  - assert (Hlt : i < 8 * max_keypermod modmap) by lia.
    assert (Hf : f = Z.to_nat (8 * max_keypermod modmap - (i + 1))) by lia.
    assert (Hi' : 3 * max_keypermod modmap <= i + 1) by lia.
    assert (Hstep : slot_has modmap sym i = false ->
              FindModifierMask_loop modmap sym (S f) i 0
              = FindModifierMask_loop modmap sym f (i + 1) 0).
    { unfold slot_has. cbn [FindModifierMask_loop].
      destruct (Z.ltb_spec i (8 * max_keypermod modmap)); [|lia]. cbn.
      destruct (nth (Z.to_nat i) (modifiermap modmap) 0 =? 0); cbn;
        [reflexivity|].
      destruct (XGetKeyboardMapping srv _) as [[symlist n]|]; [|reflexivity].
      intros ->. reflexivity. }
    destruct (slot_has modmap sym i) eqn:S.
    + right. exists i. split; [lia|]. split; [exact S|].
      split; [intros j Hj; lia|].
      unfold slot_has in S. cbn [FindModifierMask_loop].
      destruct (Z.ltb_spec i (8 * max_keypermod modmap)); [|lia]. cbn.
      destruct (nth (Z.to_nat i) (modifiermap modmap) 0 =? 0); cbn in S;
        [discriminate|].
      destruct (XGetKeyboardMapping srv _) as [[symlist n]|]; [|discriminate].
      rewrite S. apply FindModifierMask_loop_stops.
      assert (3 <= Z.quot i (max_keypermod modmap))
        by (apply Z.quot_le_lower_bound; lia).
      lia.
    + rewrite (Hstep eq_refl).
      destruct (IH (i + 1) Hi' Hf) as [[Hnone R]|[j0 [Hj0 [Hs [Hleast R]]]]].
      * left. split; [|exact R]. intros j Hj.
        destruct (Z.eq_dec j i) as [->|]; [exact S|apply Hnone; lia].
      * right. exists j0. split; [lia|]. split; [exact Hs|]. split; [|exact R].
        intros j Hj.
        destruct (Z.eq_dec j i) as [->|]; [exact S|apply Hleast; lia].
Qed.

(** X7. [FindModifierMask] answers with the row (3 for Mod1 up to 7 for
    Mod5) of the first slot of the modifier map, from the Mod1 row on, whose
    key code is not 0 and has the wanted symbol in its symbol list; it
    answers 0 exactly when no such slot exists or the server hands out no
    modifier map.  The rows of Shift, Lock and Control are never searched. *)
Theorem FindModifierMask_finds_first_slot sym :
  match XGetModifierMapping srv with
  | None => FindModifierMask sym = 0
  | Some modmap =>
      let m := max_keypermod modmap in
      ((forall j, Mod1MapIndex * m <= j < 8 * m -> slot_has modmap sym j = false)
       /\ FindModifierMask sym = 0)
      \/ (exists j0,
            Mod1MapIndex * m <= j0 < 8 * m
            /\ slot_has modmap sym j0 = true
            /\ (forall j, Mod1MapIndex * m <= j < j0 ->
                slot_has modmap sym j = false)
            /\ FindModifierMask sym = Z.quot j0 m
            /\ 3 <= FindModifierMask sym <= 7)
  end.
Proof.
  unfold FindModifierMask.
  destruct (XGetModifierMapping srv) as [modmap|]; [|reflexivity]. cbv zeta.
  destruct (FindModifierMask_loop_first modmap sym
              (Z.to_nat (8 * max_keypermod modmap
                         - Mod1MapIndex * max_keypermod modmap))
              (Mod1MapIndex * max_keypermod modmap) (Z.le_refl _) eq_refl)
    as [H|[j0 [Hj0 [Hs [Hleast R]]]]]; [left; exact H|].
  right. exists j0. repeat split; try assumption; try apply Hj0;
    rewrite R; unfold Mod1MapIndex in *.
  - apply Z.quot_le_lower_bound; lia.
  - apply Z.lt_succ_r. apply Z.quot_lt_upper_bound; lia.
Qed.

Lemma candidate_masks_bits :
  Forall (fun m => 0 <= m < 256
                   /\ Z.land m LockMask = 0 /\ Z.land m ControlMask = 0)
    candidate_masks
  /\ In 0 candidate_masks.
Proof.
  unfold candidate_masks. cbn [fold_left]. unfold add_extra_masks.
  pose proof (FindModifierMask_range XK_Mode_switch) as Ha.
  pose proof (FindModifierMask_range XK_ISO_Level3_Shift) as Hb.
  revert Ha Hb.
  generalize (FindModifierMask XK_Mode_switch) as a.
  generalize (FindModifierMask XK_ISO_Level3_Shift) as b.
  intros b a Ha Hb. cbn [In] in Ha, Hb.
  repeat (destruct Ha as [Ha|Ha]; [subst a|]); try contradiction;
  repeat (destruct Hb as [Hb|Hb]; [subst b|]); try contradiction;
  cbn; unfold ShiftMask;
  (split; [repeat constructor; lia|left; reflexivity]).
Qed.

(** X8. The modifier state the resolver answers with is always one of the
    candidates: it fits the eight modifier bits and never contains the Lock
    or the Control bit. *)
Theorem CalcModifiersForKeysym_bits code sym :
  let r := CalcModifiersForKeysym code sym in
  In r candidate_masks
  /\ 0 <= r < 256
  /\ Z.land r LockMask = 0
  /\ Z.land r ControlMask = 0.
Proof.
  cbv zeta. destruct candidate_masks_bits as [Hall H0].
  assert (Hin : In (CalcModifiersForKeysym code sym) candidate_masks).
  { unfold CalcModifiersForKeysym.
    destruct (XGetKeyboardMapping srv code) as [[symlist n]|]; [|exact H0].
    destruct (0 <? n); [|exact H0]. cbv zeta.
    set (mx := Nat.min (List.length candidate_masks) (Z.to_nat n)).
    pose proof (std_find_range symlist sym mx 0) as Hr.
    destruct (Nat.eqb_spec (std_find symlist 0 mx sym) mx); [exact H0|].
    apply nth_In. lia. }
  split; [exact Hin|].
  rewrite Forall_forall in Hall. apply (Hall _ Hin).
Qed.

(** X9. An extra-shift key doubles the candidate list at most once per
    modifier: when Mode_switch and ISO_Level3_Shift sit on the same
    modifier, the second round adds nothing and the list has four entries
    (none, shift, the modifier, shift with the modifier); in general it has
    2, 4 or 8 entries, 8 only when both keys are found on different
    modifiers. *)
Theorem candidate_masks_count :
  let a := FindModifierMask XK_Mode_switch in
  let b := FindModifierMask XK_ISO_Level3_Shift in
  List.length candidate_masks =
    (2 * (if (a =? 0)%Z then 1 else 2)
       * (if ((b =? 0)%Z || (b =? a)%Z)%bool then 1 else 2))%nat
  /\ (a <> 0 -> b = a ->
      candidate_masks =
        [0; ShiftMask; Z.shiftl 1 a; Z.lor ShiftMask (Z.shiftl 1 a)]).
Proof.
  cbv zeta. unfold candidate_masks. cbn [fold_left]. unfold add_extra_masks.
  pose proof (FindModifierMask_range XK_Mode_switch) as Ha.
  pose proof (FindModifierMask_range XK_ISO_Level3_Shift) as Hb.
  revert Ha Hb.
  generalize (FindModifierMask XK_Mode_switch) as a.
  generalize (FindModifierMask XK_ISO_Level3_Shift) as b.
  intros b a Ha Hb. cbn [In] in Ha, Hb.
  repeat (destruct Ha as [Ha|Ha]; [subst a|]); try contradiction;
  repeat (destruct Hb as [Hb|Hb]; [subst b|]); try contradiction;
  (split; [reflexivity|intros H1 H2; try discriminate H2; try reflexivity;
                         exfalso; apply H1; reflexivity]).
Qed.

(** *** What the XTest method does with the modifier state *)

Lemma XTest_SendKeyEvent_reads e1 e2 p :
  ev_keycode e1 = ev_keycode e2 ->
  Z.land (ev_state e1) ShiftMask = Z.land (ev_state e2) ShiftMask ->
  snd (XTest_SendKeyEvent e1 p) = snd (XTest_SendKeyEvent e2 p).
Proof.
  intros K S. unfold XTest_SendKeyEvent, XTest_SendEvent. cbn [snd].
  unfold set_type, set_keycode. cbn [ev_keycode ev_type]. rewrite K, S.
  reflexivity.
Qed.

(** X10. The XTest method looks at the shift bit of a key press and at
    nothing else of its modifier state: the second loop run with XTest on a
    list of key presses ends in the same process state, requests included,
    as on the list with every state cut down to its shift bit.  A Mod1..Mod5
    bit found by the resolver never reaches the server on this path. *)
Theorem XTest_sends_only_the_shift_bit delayMS keypresses e1 e2 p :
  snd (inject XTest_SendKeyEvent delayMS keypresses e1 p) =
  snd (inject XTest_SendKeyEvent delayMS (map shift_only keypresses) e2 p).
Proof.
  revert e1 e2 p. induction keypresses as [|k rest IH]; intros e1 e2 p;
    cbn [inject map]; [reflexivity|].
  destruct (error_detected (atGlobals p)); [reflexivity|].
  pose proof (XTest_SendKeyEvent_reads
                (set_state_time (state k) CurrentTime (set_keycode (code k) e1))
                (set_state_time (state (shift_only k)) CurrentTime
                   (set_keycode (code (shift_only k)) e2)) p) as H.
  destruct (XTest_SendKeyEvent
              (set_state_time (state k) CurrentTime (set_keycode (code k) e1)) p)
    as [e1' p1].
  destruct (XTest_SendKeyEvent
              (set_state_time (state (shift_only k)) CurrentTime
                 (set_keycode (code (shift_only k)) e2)) p) as [e2' p2].
  cbn [snd] in H. rewrite <- H.
  - apply IH.
  - reflexivity.
  - cbn. rewrite <- Z.land_assoc, Z.land_diag. reflexivity.
Qed.

(** *** Calls on no characters *)

Lemma deliver_flag g l :
  error_detected (deliver srv AutotypeHandler g l) =
  match l with [] => error_detected g | _ => true end.
Proof.
  destruct l as [|e l]; [reflexivity|].
  cbn [deliver fold_left].
  apply (deliver_keeps_flag AutotypeHandler (ErrorHandler srv g e) l). reflexivity.
Qed.

(** X11. A string without a kept character (empty, or vertical tabs only)
    sends no key event, yet the call is not a no-op: with the display open
    it still issues the XTestGrabControl pair (XTest) or the XSync
    (fallback), and it returns normally exactly when the server answers
    none of these with an error; without a display it throws. *)
Theorem SendString_without_characters str method delayMS p :
  retained str = [] ->
  let r := SendString str method delayMS p in
  let useXTEST := reported_XTEST p && negb (is_XSENDKEYS method) in
  let t := call_trace useXTEST delayMS [] in
  (XOpenDisplay srv = false -> fst r = Thrown /\ issued_by p (snd r) = [])
  /\ (XOpenDisplay srv = true ->
      issued_by p (snd r) = t
      /\ filter is_key_event (issued_by p (snd r)) = []
      /\ (fst r = Returned <->
          forall n, (0 < n <= List.length t)%nat ->
                    XErrors srv (requests p ++ firstn n t) = [])).
Proof.
  intro E. cbv zeta. split.
  - intro D. destruct (SendString_no_display str method delayMS p D) as [H1 [H2 _]].
    split; [exact H1|apply issued_by_nothing, H2].
  - intro D.
    assert (R : forallb resolvable (retained str) = true) by (rewrite E; reflexivity).
    destruct (SendString_resolved_general str method delayMS p D R)
      as [p2 [S [Hreq [Hg [_ [_ Hh]]]]]]. cbv zeta in S. rewrite S, E.
    cbn [fst snd map].
    destruct (reported_XTEST p && negb (is_XSENDKEYS method)).
    + assert (I : issued_by p
                    (XSetErrorHandler DefaultHandler
                       (injection_phase true delayMS [] p2))
                  = [XTestGrabControl true; XTestGrabControl false]).
      { apply issued_by_exact. cbn. rewrite Hreq, <- app_assoc. reflexivity. }
      rewrite I. split; [reflexivity|]. split; [reflexivity|].
      unfold injection_phase. cbn [inject snd issue atGlobals requests handler].
      rewrite Hh, Hg, Hreq, !deliver_flag. cbn [clean error_detected].
      rewrite <- app_assoc. cbn [app].
      split.
      * intros Hret n Hn. cbn in Hn.
        destruct (XErrors srv (requests p ++ [XTestGrabControl true;
                                               XTestGrabControl false])) eqn:X2;
          [|discriminate].
        destruct (XErrors srv (requests p ++ [XTestGrabControl true])) eqn:X1;
          [|discriminate].
        destruct n as [|[|[|n]]]; try lia; cbn; assumption.
      * intro Hall.
        assert (A2 := Hall 2%nat). assert (A1 := Hall 1%nat). cbn in A1, A2.
        rewrite A2, A1 by lia. reflexivity.
    + assert (I : issued_by p
                    (XSetErrorHandler DefaultHandler
                       (injection_phase false delayMS [] p2))
                  = [XSync false]).
      { apply issued_by_exact. cbn. rewrite Hreq. reflexivity. }
      rewrite I. split; [reflexivity|]. split; [reflexivity|].
      unfold injection_phase. cbn [inject snd issue atGlobals requests handler].
      rewrite Hh, Hg, Hreq, !deliver_flag. cbn [clean error_detected].
      split.
      * intros Hret n Hn. cbn in Hn.
        destruct (XErrors srv (requests p ++ [XSync false])) eqn:X1;
          [|discriminate].
        destruct n as [|[|n]]; try lia; cbn; assumption.
      * intro Hall. assert (A1 := Hall 1%nat). cbn in A1.
        rewrite A1 by lia. reflexivity.
Qed.

(** *** The statics of UseXTest after a call *)

Lemma SendString_statics str method delayMS p :
  let p' := snd (SendString str method delayMS p) in
  if XOpenDisplay srv && forallb resolvable (retained str)
  then checked p' = true /\ useXTest p' = reported_XTEST p
  else checked p' = checked p /\ useXTest p' = useXTest p.
Proof.
  cbv zeta. destruct (XOpenDisplay srv) eqn:D; cbn [andb].
  - destruct (forallb resolvable (retained str)) eqn:R.
    + destruct (SendString_resolved_general str method delayMS p D R)
        as [p2 [S [_ [_ [C [U _]]]]]]. cbv zeta in S. rewrite S. cbn [snd].
      cbn [XSetErrorHandler checked useXTest].
      destruct (reported_XTEST p && negb (is_XSENDKEYS method)).
      * destruct (injection_phase_native delayMS (map keypress_of (retained str)) p2)
          as [[[C' U'] _] _]. rewrite C', U'. auto.
      * destruct (injection_phase_fallback delayMS (map keypress_of (retained str)) p2)
          as [[[C' U'] _] _]. rewrite C', U'. auto.
    + destruct (resolve_abort str [] R) as [msg Hmsg].
      rewrite SendString_unfold, (DoSendString_aborted _ _ _ _ _ D Hmsg).
      cbn. auto.
  - rewrite SendString_unfold, (DoSendString_no_display _ _ _ _ D). cbn. auto.
Qed.

(** *** The Unicode keysym convention *)

Lemma land_bit24 (wc : Z) : 0 <= wc < 2 ^ 24 -> Z.land wc 0x01000000 = 0.
Proof.
  intro H. apply Z.bits_inj'. intros n Hn.
  rewrite Z.land_spec, Z.bits_0.
  change 0x01000000 with (2 ^ 24). rewrite Z.pow2_bits_eqb by lia.
  destruct (Z.eqb_spec 24 n) as [<-|]; [|apply andb_false_r].
  destruct (Z.eq_dec wc 0) as [->|]; [reflexivity|].
  rewrite Z.bits_above_log2; [reflexivity|lia|].
  apply Z.log2_lt_pow2; lia.
Qed.

(** X13. For a code point above 0xFF and up to 0x10FFFF that the lookup
    table does not know, the symbolic key is the code point plus 0x01000000:
    the code point can be read back from its low 24 bits, and two such code
    points never share a symbolic key. *)
Theorem wchar2keysym_unicode_round_trip (wc wc' : Z) :
  0xFF < wc <= 0x10FFFF -> unicode2keysym wc = NoSymbol ->
  wchar2keysym wc = wc + 0x01000000
  /\ Z.land (wchar2keysym wc) 0xFFFFFF = wc
  /\ (0xFF < wc' <= 0x10FFFF -> unicode2keysym wc' = NoSymbol ->
      wchar2keysym wc' = wchar2keysym wc -> wc' = wc).
Proof.
  intros Hwc Hu.
  assert (G : forall c, 0xFF < c <= 0x10FFFF -> unicode2keysym c = NoSymbol ->
                        wchar2keysym c = c + 0x01000000).
  { intros c Hc Hn. rewrite wchar2keysym_beyond_latin1, Hn by exact Hc.
    cbn [Z.eqb NoSymbol].
    rewrite <- Z.lxor_lor by (apply land_bit24; lia).
    symmetry. apply Z.add_nocarry_lxor. apply land_bit24. lia. }
  split; [apply G; assumption|]. split.
  - rewrite (G wc Hwc Hu).
    change 0xFFFFFF with (Z.ones 24). rewrite Z.land_ones by lia.
    change 0x01000000 with (1 * 2 ^ 24). rewrite Z.mod_add by lia.
    apply Z.mod_small. lia.
  - intros Hwc' Hu' E. rewrite (G wc Hwc Hu), (G wc' Hwc' Hu') in E. lia.
Qed.

End XSendString.

(** ** The properties at concrete inputs *)

Lemma wchar2keysym_characterization_witness :
  wchar2keysym no_table 0x80 = 0x80
  /\ wchar2keysym no_table 0x20AC = 0x010020AC
  /\ wchar2keysym no_table 0x0B = NoSymbol.
Proof.
  destruct (wchar2keysym_characterization no_table 0x80) as [_ [H _]].
  destruct (wchar2keysym_characterization no_table 0x20AC) as [_ [_ [_ H']]].
  destruct (wchar2keysym_characterization no_table 0x0B) as [H'' _].
  split; [apply H; lia|]. split; [apply H'; lia|].
  apply H''. left. split; [lia|]. cbn. lia.
Defined.

(** C2, on the code.  The test for 0x7F..0x9F in [wchar2keysym] sits behind
    the branch that returns every value from 0x20 to 0xFF unchanged, so it is
    never reached: U+0080 gets the symbolic key 0x80 instead of [NoSymbol].
    On a layout that binds this key the call succeeds and types it; on one
    that does not, the call fails for the lack of a key code, not for an
    unmappable character.  Values above 0x10FFFF are refused. *)
Theorem wchar2keysym_0x80_is_resolved
  (unicode2keysym : Z -> KeySym) (wcrtomb : Z -> option string) :
  wchar2keysym unicode2keysym 0x80 = 0x80
  /\ wchar2keysym unicode2keysym 0x80 <> NoSymbol
  /\ wchar2keysym unicode2keysym 0x7F = 0x7F
  /\ wchar2keysym unicode2keysym 0x9F = 0x9F
  /\ wchar2keysym unicode2keysym 0x110000 = NoSymbol
  /\ (let r := SendString unicode2keysym wcrtomb c1_server [0x80]
                 ATMETHOD_AUTO 0 fresh_process in
      fst r = Returned
      /\ filter is_key_event (requests (snd r)) =
         [XTestFakeKeyEvent 200 true 0; XTestFakeKeyEvent 200 false 0])
  /\ (let r := SendString unicode2keysym no_locale demo_server [0x80]
                 ATMETHOD_AUTO 0 fresh_process in
      fst r = Thrown
      /\ substring 0 34 (errorString (atGlobals (snd r))) =
         "Could not get keycode for key char"%string).
Proof.
  repeat split; try reflexivity. discriminate.
Qed.

Lemma ErrorHandler_records_latest_witness :
  errorString
    (deliver demo_server AutotypeHandler clean [BadWindow_event; BadValue_event])
  = "X error (132): BadValue"%string.
Proof.
  destruct (ErrorHandler_records_latest demo_server clean
              [BadWindow_event] BadValue_event) as [_ [H _]].
  exact H.
Defined.

(** C3 fails as stated: with the flag already set by a first error, a
    second call of the handler replaces the recorded text; a call whose
    final XSync brings two errors ends with the text of the second. *)
Lemma ErrorHandler_overwrites_first_error :
  let g1 := ErrorHandler demo_server clean BadWindow_event in
  let g2 := ErrorHandler demo_server g1 BadValue_event in
  let r := SendString no_table no_locale faulty_server [0x61]
             ATMETHOD_AUTO 0 fresh_process in
  error_detected g1 = true
  /\ errorString g1 = "X error (25): BadWindow"%string
  /\ errorString g2 = "X error (132): BadValue"%string
  /\ g2 <> g1
  /\ fst r = Thrown
  /\ errorString (atGlobals (snd r)) = "X error (132): BadValue"%string.
Proof.
  cbv zeta. repeat split; try reflexivity. discriminate.
Qed.

Lemma resolution_all_or_nothing_witness :
  In 0x05 [0x41; 0x05; 0x61]
  /\ resolvable no_table demo_server 0x05 = false
  /\ (let r := SendString no_table no_locale demo_server [0x41; 0x05; 0x61]
                 ATMETHOD_AUTO 10 fresh_process in
      fst r = Thrown /\ requests (snd r) = []).
Proof.
  assert (Hin : In 0x05 [0x41; 0x05; 0x61]) by (cbn; tauto).
  assert (Hvt : 0x05 <> VT) by discriminate.
  assert (Hc : resolvable no_table demo_server 0x05 = false) by reflexivity.
  destruct (resolution_all_or_nothing no_table no_locale demo_server
              [0x41; 0x05; 0x61] ATMETHOD_AUTO 10 fresh_process 0x05 Hin Hvt Hc)
    as [H1 [_ [H3 _]]].
  split; [exact Hin|]. split; [exact Hc|]. split; [exact H1|exact H3].
Defined.

Lemma handler_after_call_witness :
  handler fresh_process = DefaultHandler
  /\ handler (snd (SendString no_table no_locale demo_server [0x61]
                     ATMETHOD_AUTO 0 fresh_process)) = handler fresh_process.
Proof.
  split; [reflexivity|].
  apply (handler_after_call no_table no_locale demo_server [0x61]
           ATMETHOD_AUTO 0 fresh_process).
  reflexivity.
Defined.

(** C4 fails as stated: a successful call started with a handler of the
    toolkit registered returns with the default handler registered. *)
Lemma handler_not_restored :
  let r := SendString no_table no_locale demo_server [0x61]
             ATMETHOD_AUTO 0 toolkit_process in
  fst r = Returned
  /\ handler toolkit_process = ForeignHandler 1
  /\ handler (snd r) = DefaultHandler
  /\ handler (snd r) <> handler toolkit_process.
Proof.
  cbv zeta. repeat split; try reflexivity. discriminate.
Qed.

Lemma modifier_search_prefers_narrowest_witness :
  demo_mapping 38 = Some ([0x61; 0x41; 0xe6; 0xc6], 4)
  /\ candidate_masks demo_server = [0; 1; 128; 129]
  /\ CalcModifiersForKeysym demo_server 38 0xe6 = 128.
Proof.
  split; [reflexivity|]. split; [reflexivity|].
  destruct (modifier_search_prefers_narrowest demo_server 38 0xe6
              [0x61; 0x41; 0xe6; 0xc6] 4 2) as [H _].
  - reflexivity.
  - lia.
  - vm_compute. lia.
  - reflexivity.
  - intros j Hj. destruct j as [|[|j]]; [discriminate|discriminate|lia].
  - exact H.
Defined.

Lemma strategy_selection_witness :
  existsb is_XTest_action
    (issued_by fresh_process
       (snd (SendString no_table no_locale demo_server [0x41; 0x61]
               ATMETHOD_AUTO 10 fresh_process))) = true
  /\ existsb is_XTest_action
       (issued_by fresh_process
          (snd (SendString no_table no_locale demo_server [0x41; 0x61]
                  ATMETHOD_XSENDKEYS 10 fresh_process))) = false
  /\ SendString no_table no_locale plain_server [0x41; 0x61]
       ATMETHOD_XTEST 10 fresh_process =
     SendString no_table no_locale plain_server [0x41; 0x61]
       ATMETHOD_XSENDKEYS 10 fresh_process.
Proof.
  assert (S : forall srv, UseXTest_static_ok srv fresh_process)
    by (intros srv H; discriminate H).
  destruct (strategy_selection no_table no_locale demo_server [0x41; 0x61]
              ATMETHOD_AUTO 10 fresh_process _ eq_refl eq_refl (S _))
    as [Hauto _].
  destruct (strategy_selection no_table no_locale demo_server [0x41; 0x61]
              ATMETHOD_XSENDKEYS 10 fresh_process _ eq_refl eq_refl (S _))
    as [Hforced _].
  destruct (strategy_selection no_table no_locale plain_server [0x41; 0x61]
              ATMETHOD_XTEST 10 fresh_process _ eq_refl eq_refl (S _))
    as [_ [_ [_ [_ [Hplain _]]]]].
  split; [exact Hauto|]. split; [exact Hforced|]. apply Hplain. reflexivity.
Defined.

Lemma modifier_default_is_none_witness :
  demo_mapping 38 = Some ([0x61; 0x41; 0xe6; 0xc6], 4)
  /\ CalcModifiersForKeysym demo_server 38 0x31 = 0.
Proof.
  split; [reflexivity|].
  apply (modifier_default_is_none no_table no_locale demo_server 38 0x31).
  intros symlist n Hmap i Hi. injection Hmap as <- <-.
  vm_compute in Hi. destruct i as [|[|[|[|i]]]]; cbn; try discriminate. lia.
Defined.

Lemma mask_lookup_in_bounds_witness :
  mapping_ok demo_server 38
  /\ CalcModifiersForKeysym_checked demo_server 38 0xc6 = Some 129.
Proof.
  assert (Hok : mapping_ok demo_server 38).
  { intros symlist n Hmap. injection Hmap as <- <-. cbn. lia. }
  split; [exact Hok|].
  exact (proj1 (mask_lookup_in_bounds demo_server 38 0xc6 Hok)).
Defined.

(** ** Further properties across servers and at concrete inputs *)

Lemma UseXTest_answer (srv : XServer) (p : Process) :
  fst (UseXTest srv p) = reported_XTEST srv p.
Proof. unfold UseXTest, reported_XTEST. destruct (checked p); reflexivity. Qed.

(** X12. [UseXTest] asks the server once in the life of the process.  A call
    that reaches the injection pass leaves the statics set, and from then on
    every call gets the answer recorded then, whatever the server it talks
    to reports; a call that fails before the injection pass leaves the
    statics as they were. *)
Theorem UseXTest_asks_the_server_once
  (unicode2keysym : Z -> KeySym) (wcrtomb : Z -> option string)
  (srv srv' : XServer) str method delayMS p :
  let p' := snd (SendString unicode2keysym wcrtomb srv str method delayMS p) in
  let reached :=
    XOpenDisplay srv && forallb (resolvable unicode2keysym srv) (retained str) in
  checked p' = (checked p || reached)
  /\ reported_XTEST srv' p' =
     (if reached then reported_XTEST srv p else reported_XTEST srv' p)
  /\ fst (UseXTest srv' p') = reported_XTEST srv' p'.
Proof.
  cbv zeta.
  pose proof (SendString_statics unicode2keysym wcrtomb srv str method delayMS p)
    as H. cbv zeta in H.
  split; [|split; [|apply UseXTest_answer]];
    destruct (XOpenDisplay srv
              && forallb (resolvable unicode2keysym srv) (retained str));
    destruct H as [C U]; unfold reported_XTEST; rewrite C, ?U.
  - rewrite orb_true_r. reflexivity.
  - rewrite orb_false_r. reflexivity.
  - reflexivity.
  - reflexivity.
Qed.

Lemma UseXTest_asks_the_server_once_witness :
  let p1 := snd (SendString no_table no_locale plain_server [0x61]
                   ATMETHOD_AUTO 0 fresh_process) in
  let p2 := snd (SendString no_table no_locale demo_server [0x61]
                   ATMETHOD_AUTO 0 p1) in
  XQueryExtension demo_server "XTEST" = true
  /\ reported_XTEST demo_server p1 = false
  /\ existsb is_XTest_action (issued_by p1 p2) = false.
Proof.
  cbv zeta. split; [reflexivity|]. split; [|reflexivity].
  destruct (UseXTest_asks_the_server_once no_table no_locale plain_server
              demo_server [0x61] ATMETHOD_AUTO 0 fresh_process) as [_ [H _]].
  exact H.
Defined.

Lemma SendString_types_a_prefix_witness :
  exists n,
    (n <= 2)%nat
    /\ issued_by fresh_process
         (snd (SendString no_table no_locale faulty_server [0x61; 0x0B; 0x41]
                 ATMETHOD_AUTO 5 fresh_process))
       = call_trace faulty_server false 5
           (firstn n (map (keypress_of no_table faulty_server) [0x61; 0x41])).
Proof.
  destruct (SendString_types_a_prefix no_table no_locale faulty_server
              [0x61; 0x0B; 0x41] ATMETHOD_AUTO 5 fresh_process eq_refl eq_refl)
    as [n [Hn [H _]]].
  exists n. split; [exact Hn|exact H].
Defined.

Lemma SendString_succeeds_without_errors_witness :
  SendString no_table no_locale demo_server [0x61; 0x0B; 0x41]
    ATMETHOD_AUTO 5 fresh_process
  = (Returned,
     {| atGlobals := clean; checked := true; useXTest := true;
        handler := DefaultHandler;
        requests :=
          [XTestGrabControl true;
           XTestFakeKeyEvent 38 true 0; XTestFakeKeyEvent 38 false 0;
           XFlush; sleep_ms 5;
           XTestFakeKeyEvent 50 true 0;
           XTestFakeKeyEvent 38 true 0; XTestFakeKeyEvent 38 false 0;
           XTestFakeKeyEvent 50 false 0;
           XFlush; sleep_ms 5;
           XTestGrabControl false] |})
  /\ issued_by fresh_process
       (snd (SendString no_table no_locale demo_server [0x61; 0x0B; 0x41]
               ATMETHOD_AUTO 5 fresh_process))
     = call_trace demo_server true 5
         (map (keypress_of no_table demo_server) [0x61; 0x41]).
Proof.
  split; [reflexivity|].
  apply (SendString_succeeds_without_errors no_table no_locale demo_server
           [0x61; 0x0B; 0x41] ATMETHOD_AUTO 5 fresh_process
           (fun _ => eq_refl) eq_refl eq_refl).
Defined.

Lemma resolution_reports_first_failure_witness :
  (exists front c back,
     retained [0x41; 0x0B; 0x62; 0x05] = front ++ c :: back
     /\ forallb (resolvable no_table demo_server) front = true
     /\ resolvable no_table demo_server c = false
     /\ errorString
          (atGlobals
             (snd (SendString no_table no_locale demo_server
                     [0x41; 0x0B; 0x62; 0x05] ATMETHOD_AUTO 0 fresh_process)))
        = abort_message no_table no_locale demo_server c)
  /\ errorString
       (atGlobals
          (snd (SendString no_table no_locale demo_server
                  [0x41; 0x0B; 0x62; 0x05] ATMETHOD_AUTO 0 fresh_process)))
     = abort_message no_table no_locale demo_server 0x62.
Proof.
  split; [|reflexivity].
  exact (resolution_reports_first_failure no_table no_locale demo_server
           [0x41; 0x0B; 0x62; 0x05] ATMETHOD_AUTO 0 fresh_process
           eq_refl eq_refl).
Defined.

Lemma SendString_without_characters_witness :
  SendString no_table no_locale plain_server [0x0B; 0x0B]
    ATMETHOD_AUTO 5 fresh_process
  = SendString no_table no_locale plain_server [] ATMETHOD_AUTO 5 fresh_process
  /\ issued_by fresh_process
       (snd (SendString no_table no_locale plain_server [0x0B; 0x0B]
               ATMETHOD_AUTO 5 fresh_process)) = [XSync false]
  /\ fst (SendString no_table no_locale plain_server [0x0B; 0x0B]
            ATMETHOD_AUTO 5 fresh_process) = Returned.
Proof.
  destruct (SendString_without_characters no_table no_locale plain_server
              [0x0B; 0x0B] ATMETHOD_AUTO 5 fresh_process eq_refl)
    as [_ H].
  destruct (H eq_refl) as [I [_ Hiff]].
  split; [reflexivity|]. split; [exact I|].
  apply Hiff. intros n Hn. reflexivity.
Defined.

Lemma wchar2keysym_unicode_round_trip_witness :
  wchar2keysym no_table 0x20AC = 0x010020AC
  /\ Z.land (wchar2keysym no_table 0x20AC) 0xFFFFFF = 0x20AC.
Proof.
  destruct (wchar2keysym_unicode_round_trip no_table 0x20AC 0x20AC)
    as [H1 [H2 _]]; [lia|reflexivity|].
  split; [exact H1|exact H2].
Defined.
